(** * FullPerfCard: the dashboard's server-performance widget

    A shallow embedding of [panel/src/pages/Dashboard/FullPerfCard.tsx]:
    the error panel [ChartErrorMessage], the chart surface [FullPerfChart]
    with its hooks ([useMemo], [useRef], [useEffect]) as explicit state, and
    the card [FullPerfCard] as a transition system over user and fetch
    events.  JS objects used as maps are [gmap]s; the helpers imported from
    [./chartingUtils] are an interface ([ChartingUtils]). *)

From stdpp Require Import gmap strings list.
From Stdlib Require Floats.

Local Set Warnings "-register-all".

(** ** JavaScript values the component relies on *)

Module Js.

(** A [number] is an IEEE 754 double, as in JavaScript: Rocq's primitive
    [float], with its two zeros, its infinities, its fractions and its one
    [NaN]. *)
Definition number : Type := PrimFloat.float.

(** The double nearest to an integer (the integer itself up to 2^53): the
    way the numeric literals of the source are written here. *)
Definition Int (z : Z) : number :=
  FloatOps.SF2Prim
    (SpecFloat.binary_normalize FloatOps.prec FloatOps.emax z 0 false).
Arguments Int : simpl never.

Definition NaN : number := PrimFloat.nan.

(** The negative zero, [-0]. *)
Definition NegZero : number := PrimFloat.neg_zero.

(** Equality of doubles is what [Object.is] tests on numbers: [NaN] is
    [NaN], and [+0] is not [-0]. *)
#[global] Instance number_eq_dec : EqDecision number.
Proof.
  intros x y. destruct (PrimFloat.Leibniz.eqb x y) eqn:Heqb.
  - left. by apply FloatAxioms.Leibniz.eqb_spec.
  - right. intros Heq. apply FloatAxioms.Leibniz.eqb_spec in Heq. congruence.
Defined.

(** [!n] is [true] exactly for [+0], [-0] and [NaN]. *)
Definition truthy (n : number) : bool :=
  negb (PrimFloat.is_zero n || PrimFloat.is_nan n).
Arguments truthy : simpl never.

(** [a - b], the subtraction of doubles. *)
Definition sub (a b : number) : number := PrimFloat.sub a b.
Arguments sub : simpl never.

(** [!l.length] for an array [l]: its length is [0]. *)
Definition emptyLength {A} (l : list A) : bool :=
  bool_decide (length l = 0).

(** [Object.is] on primitives and on object references (compared by
    address): the comparison React applies to hook dependencies. *)
Definition Object_is `{EqDecision A} (a b : A) : bool := bool_decide (a = b).

(** The property names every object literal inherits from
    [Object.prototype]. *)
Definition ObjectPrototype_keys : list string :=
  [ "constructor"; "__defineGetter__"; "__defineSetter__"; "hasOwnProperty";
    "__lookupGetter__"; "__lookupSetter__"; "isPrototypeOf";
    "propertyIsEnumerable"; "toString"; "valueOf"; "__proto__";
    "toLocaleString" ].

(** [obj[key]] on an object literal whose own properties are [own]: the own
    property when there is one, else the member of [Object.prototype] of that
    name ([inherited key]), else [undefined] ([None]). *)
Definition getProperty {V} (inherited : string → V) (own : gmap string V)
    (key : string) : option V :=
  match own !! key with
  | Some v => Some v
  | None =>
      if decide (key ∈ ObjectPrototype_keys) then Some (inherited key) else None
  end.

(** [v ?? d] *)
Definition nullish_or {A} (v : option A) (d : A) : A := default d v.

(** What can be thrown at the widget: a plain [Error] or the fetch hook's
    [BackendApiError] (the [instanceof] test tells them apart). *)
Inductive JsError :=
| Error (message : string)
| BackendApiError (message : string).

#[global] Instance JsError_eq_dec : EqDecision JsError.
Proof. solve_decision. Defined.

Definition message (e : JsError) : string :=
  match e with
  | Error m => m
  | BackendApiError m => m
  end.

End Js.

Import Js.

(** ** React nodes *)

(** What a JSX expression container may hold.  [InheritedValue name] is not a
    node at all: it is the member [name] of [Object.prototype] (a function, or
    for [__proto__] the prototype object), which is what a lookup in an object
    literal returns for such a key. *)
Inductive ReactNode :=
| Text (s : string)
| Element (tag className : string) (children : list ReactNode)
| InheritedValue (name : string).

(** The text React puts on screen for a node: a function child renders
    nothing, a plain object child makes the render throw ([None]). *)
Fixpoint displayedText (n : ReactNode) : option string :=
  match n with
  | Text s => Some s
  | Element _ _ children =>
      foldr (λ c acc, match displayedText c, acc with
                      | Some s, Some t => Some (s +:+ t)
                      | _, _ => None
                      end) (Some "") children
  | InheritedValue name =>
      if decide (name = "__proto__") then None else Some ""
  end.

(** ** ChartErrorMessage *)

Definition errorMessageMaps : gmap string ReactNode :=
  {[ "bad_request" := Text "Chart data loading failed: bad request.";
     "invalid_thread_name" :=
       Text "Chart data loading failed: invalid thread name.";
     "data_unavailable" :=
       Text "Chart data loading failed: data not yet available.";
     "not_enough_data" :=
       Element "p" "text-center"
         [ Element "strong" ""
             [ Text "There is not enough data to display the chart just yet." ];
           Element "br" "" [];
           Element "span" "text-base italic"
             [ Text "The chart requires at least 30 minutes of server runtime data to be available." ] ] ]}.

Definition ChartErrorMessage (error : JsError) : ReactNode :=
  match error with
  | BackendApiError msg =>
      Element "div"
        "absolute inset-0 flex flex-col items-center justify-center text-2xl text-muted-foreground"
        [ nullish_or (getProperty InheritedValue errorMessageMaps msg)
            (Text "Unknown BackendApiError") ]
  | Error msg =>
      Element "div"
        "absolute inset-0 flex flex-col items-center justify-center text-2xl text-destructive-inline"
        [ Text "Error: "; Text (nullish_or (Some msg) "Unknown Error") ]
  end.

(** The four tags of the endpoint's error taxonomy. *)
Definition knownErrorTags : list string :=
  [ "bad_request"; "invalid_thread_name"; "data_unavailable"; "not_enough_data" ].

(** ** The helpers of [./chartingUtils] and the API response *)

(** An object reference: objects are compared by address. *)
Abbreviation ObjRef := nat.

Record SvRtPerfCountsThreadType (Buckets : Type) := {
  buckets : Buckets;
}.
Arguments buckets {Buckets} _.

(** What [processPerfLog] returns when it returns an object: the lifespans
    the source inspects, and its other fields, which the source only
    spreads. *)
Record ParsedPerfLog (Lifespan Rest : Type) := {
  lifespans : list Lifespan;
  parsedRest : Rest;
}.
Arguments lifespans {Lifespan Rest} _.
Arguments parsedRest {Lifespan Rest} _.

(** The imports from [./chartingUtils], which the chart treats as opaque
    collaborators: their types and the four functions the source calls.
    [formatTickBoundary] is a function of the boundary alone: [map] also
    hands it the index and the array, which it does not read. *)
Class ChartingUtils := {
  Boundary : Type;
  PerfLogEntry : Type;
  Buckets : Type;
  BucketTimes : Type;
  Histogram : Type;
  Lifespan : Type;
  ParsedRest : Type;
  PerfSnapType : Type;
  getBucketTicketsEstimatedTime : list Boundary → BucketTimes;
  getTimeWeightedHistogram : Buckets → BucketTimes → Histogram;
  processPerfLog :
    list PerfLogEntry → (SvRtPerfCountsThreadType Buckets → Histogram) →
    option (ParsedPerfLog Lifespan ParsedRest);
  formatTickBoundary : Boundary → string;
}.

Record PerfChartApiSuccessResp `{ChartingUtils} := {
  boundaries : list Boundary;
  threadPerfLog : list PerfLogEntry;
}.

(** A small concrete set of helpers, used to run the model on examples:
    boundaries and log entries are numbers, one lifespan per positive log
    entry, and no parse result at all for a log that starts with [0]. *)
Definition sampleFormat (b : Z) : string :=
  if decide (b = 0%Z) then "0" else if decide (b = 1%Z) then "1" else "+Inf".

Definition sampleProcessPerfLog (log : list Z)
    (perfProcessor : SvRtPerfCountsThreadType Z → Z) :
    option (ParsedPerfLog Z unit) :=
  match log with
  | 0%Z :: _ => None
  | _ =>
      Some {| lifespans :=
                perfProcessor <$> (Build_SvRtPerfCountsThreadType Z <$>
                                     filter (λ z, 0 < z)%Z log);
              parsedRest := () |}
  end.

Definition sampleUtils : ChartingUtils := {|
  Boundary := Z;
  PerfLogEntry := Z;
  Buckets := Z;
  BucketTimes := Z;
  Histogram := Z;
  Lifespan := Z;
  ParsedRest := unit;
  PerfSnapType := Z;
  getBucketTicketsEstimatedTime := λ bs, foldr Z.add 0%Z bs;
  getTimeWeightedHistogram := λ b t, (b * t)%Z;
  processPerfLog := sampleProcessPerfLog;
  formatTickBoundary := sampleFormat;
|}.

(** Two sample responses: object 0 has two snapshots, every other object
    has an empty snapshot sequence. *)
Definition sampleStore (a : ObjRef) : @PerfChartApiSuccessResp sampleUtils :=
  match a with
  | 0 => @Build_PerfChartApiSuccessResp sampleUtils [0; 1; 2]%Z [3; 4]%Z
  | _ => @Build_PerfChartApiSuccessResp sampleUtils [0; 1; 2]%Z []
  end.

(** Deep equality of the sample responses: every object but object 0 has
    the same content. *)
Definition sampleCompare (a b : ObjRef) : bool :=
  match a, b with
  | 0, 0 => true
  | S _, S _ => true
  | _, _ => false
  end.

(** ** FullPerfChart *)

Record FullPerfChartProps := {
  threadName : string;
  apiData : option ObjRef;
  width : number;
  height : number;
  isDarkMode : bool;
}.

#[global] Instance FullPerfChartProps_eq_dec : EqDecision FullPerfChartProps.
Proof. solve_decision. Defined.

(** Props for the sample response object 0, at a given size. *)
Definition sampleProps (w h : Z) : FullPerfChartProps :=
  {| threadName := "svMain"; apiData := Some 0; width := Int w;
     height := Int h; isDarkMode := true |}.

Record Margins := {
  top : number;
  right : number;
  bottom : number;
  left : number;
  axis : number;
}.

Definition margins : Margins :=
  {| top := Int 0; right := Int 50; bottom := Int 30; left := Int 40;
     axis := Int 1 |}.

(** The two draw targets, as mounted with the attributes of the render that
    produced them. *)
Record SVGSVGElement := {
  svg_width : number;
  svg_height : number;
}.

Record HTMLCanvasElement := {
  canvas_width : number;
  canvas_height : number;
  canvas_top : number;
  canvas_left : number;
}.

(** The [cursorSetter] closure: it captures the setter returned by
    [useThrottledSetCursor] in the render that built it (a function, known by
    its identity) and that render's [threadName]. *)
Record CursorSetter := {
  captured_setCursor : ObjRef;
  captured_threadName : string;
}.

(** A call of the captured [setCursor]. *)
Inductive SetCursorCall (Snap : Type) :=
| SetCursor (setter : ObjRef) (cursor : option (string * Snap)).
Arguments SetCursor {Snap} _ _.

Definition call_cursorSetter {Snap} (c : CursorSetter) (snap : option Snap) :
    SetCursorCall Snap :=
  match snap with
  | None => SetCursor (captured_setCursor c) None
  | Some s => SetCursor (captured_setCursor c) (Some (captured_threadName c, s))
  end.

(** ** FullPerfCard *)

(** The three [SelectItem]s of the thread selector: the only values its
    [onValueChange] can hand to [setSelectedThread]. *)
Inductive SelectItem :=
| Item_svMain
| Item_svSync
| Item_svNetwork.

#[global] Instance SelectItem_eq_dec : EqDecision SelectItem.
Proof. solve_decision. Defined.

Definition itemValue (i : SelectItem) : string :=
  match i with
  | Item_svMain => "svMain"
  | Item_svSync => "svSync"
  | Item_svNetwork => "svNetwork"
  end.

(** A call of the backend hook, as configured by [useBackendApi] and called
    by the fetcher: [pathParams] is the object [{ thread: selectedThread }]. *)
Record Request := {
  method : string;
  path : string;
  throwGenericErrors : bool;
  pathParams : gmap string string;
}.

Definition chartApi (thread : string) : Request :=
  {| method := "GET";
     path := "/perfChartData/:thread/";
     throwGenericErrors := true;
     pathParams := {[ "thread" := thread ]} |}.

(** How a call of the backend hook ends: with a body ([None] for a falsy
    one), or by throwing. *)
Inductive ApiOutcome :=
| Resolves (body : option ObjRef)
| Rejects (e : JsError).

(** The rest of the fetcher, after [await chartApi(...)]. *)
Definition fetcher (o : ApiOutcome) : ObjRef + JsError :=
  match o with
  | Resolves (Some d) => inl d
  | Resolves None => inr (Error "empty_response")
  | Rejects e => inr e
  end.

(** What [useSWR] returns, as far as the card reads it. *)
Record SWRResponse := {
  data : option ObjRef;
  error : option JsError;
  isLoading : bool;
}.

(** What the fetch layer does with the outcome of a request that is not the
    latest one started for the key.  The card does not decide this; the three
    behaviours a cache can have are covered. *)
Inductive StalePolicy :=
| WriteEvery
| DropStaleData
| DropStale.

#[global] Instance StalePolicy_eq_dec : EqDecision StalePolicy.
Proof. solve_decision. Defined.

Record CardState := {
  chartSize : number * number;
  selectedThread : string;
  darkMode : bool;
  swrChartApiResp : SWRResponse;
  requests : list Request;
  inFlight : gset nat;
  latestFetch : option nat;
}.

(** The SWR key is the constant ['/perfChartData/:thread']: every request of
    the card shares one cache entry.  Starting a fetch calls the fetcher of
    the latest render, which reads that render's [selectedThread]; the request
    is known by its position in the log. *)
Definition startFetch (s : CardState) : CardState :=
  {| chartSize := chartSize s;
     selectedThread := selectedThread s;
     darkMode := darkMode s;
     swrChartApiResp :=
       {| data := data (swrChartApiResp s);
          error := error (swrChartApiResp s);
          isLoading :=
            match data (swrChartApiResp s) with
            | None => true
            | Some _ => isLoading (swrChartApiResp s)
            end |};
     requests := requests s ++ [chartApi (selectedThread s)];
     inFlight := {[ length (requests s) ]} ∪ inFlight s;
     latestFetch := Some (length (requests s)) |}.

(** [swrChartApiResp.mutate()] with no argument: revalidate the key. *)
Definition mutate (s : CardState) : CardState := startFetch s.

Definition writes (policy : StalePolicy) (latest : option nat) (id : nat)
    (r : ObjRef + JsError) : bool :=
  match policy, r with
  | WriteEvery, _ => true
  | DropStaleData, inl _ => Object_is latest (Some id)
  | DropStaleData, inr _ => true
  | DropStale, _ => Object_is latest (Some id)
  end.

(** The fetcher of request [id] settles.  On success the error is cleared
    and the data becomes the fetched object, unless [compare] finds it equal
    to the object already there, which then stays; on failure the error is
    recorded and the data kept.  [compare] is the [compare] option of
    [useSWR]; the card passes [{}], so it is the default, the deep equality
    of the two response objects. *)
Definition settle (compare : ObjRef → ObjRef → bool) (policy : StalePolicy)
    (id : nat) (o : ApiOutcome) (s : CardState) : CardState :=
  let resp := swrChartApiResp s in
  {| chartSize := chartSize s;
     selectedThread := selectedThread s;
     darkMode := darkMode s;
     swrChartApiResp :=
       if writes policy (latestFetch s) id (fetcher o) then
         match fetcher o with
         | inl d =>
             {| data :=
                  match data resp with
                  | Some cached => if compare cached d then Some cached else Some d
                  | None => Some d
                  end;
                error := None; isLoading := false |}
         | inr e => {| data := data resp; error := Some e; isLoading := false |}
         end
       else resp;
     requests := requests s;
     inFlight := inFlight s ∖ {[ id ]};
     latestFetch := latestFetch s |}.

(** The first render ([useState] initial values, no data yet) followed by its
    effects: the revalidation [useSWR] starts on mount, then the
    [[selectedThread]] effect, which runs on mount too. *)
Definition firstRender : CardState :=
  {| chartSize := (Int 0, Int 0);
     selectedThread := "svMain";
     darkMode := false;
     swrChartApiResp := {| data := None; error := None; isLoading := false |};
     requests := [];
     inFlight := ∅;
     latestFetch := None |}.

Definition mount (dark : bool) : CardState :=
  let s := firstRender in
  mutate (startFetch
    {| chartSize := chartSize s; selectedThread := selectedThread s;
       darkMode := dark; swrChartApiResp := swrChartApiResp s;
       requests := requests s; inFlight := inFlight s;
       latestFetch := latestFetch s |}).

Inductive CardEvent :=
| SelectThread (i : SelectItem)
| DebouncedResize (size : number * number)
| ThemeChanged (dark : bool)
| Revalidate
| FetchSettled (id : nat) (o : ApiOutcome).

(** One event, the render it causes and that render's effects.
    [setSelectedThread] with the current value causes no render; with another
    value the [[selectedThread]] effect runs after the render and calls
    [mutate].  [Revalidate] stands for the revalidations the fetch layer
    starts by itself (focus, reconnect, retry). *)
Definition cardStep (compare : ObjRef → ObjRef → bool) (policy : StalePolicy)
    (s : CardState) (e : CardEvent) : CardState :=
  match e with
  | SelectThread i =>
      if Object_is (selectedThread s) (itemValue i) then s
      else mutate
        {| chartSize := chartSize s; selectedThread := itemValue i;
           darkMode := darkMode s; swrChartApiResp := swrChartApiResp s;
           requests := requests s; inFlight := inFlight s;
           latestFetch := latestFetch s |}
  | DebouncedResize size =>
      {| chartSize := size; selectedThread := selectedThread s;
         darkMode := darkMode s; swrChartApiResp := swrChartApiResp s;
         requests := requests s; inFlight := inFlight s;
         latestFetch := latestFetch s |}
  | ThemeChanged dark =>
      {| chartSize := chartSize s; selectedThread := selectedThread s;
         darkMode := dark; swrChartApiResp := swrChartApiResp s;
         requests := requests s; inFlight := inFlight s;
         latestFetch := latestFetch s |}
  | Revalidate => startFetch s
  | FetchSettled id o =>
      if decide (id ∈ inFlight s) then settle compare policy id o s else s
  end.

Definition cardRun (compare : ObjRef → ObjRef → bool) (policy : StalePolicy)
    (s : CardState) (events : list CardEvent) : CardState :=
  foldl (cardStep compare policy) s events.

(** Events that start no request and do not settle request [n] or a later
    one: outcomes of earlier requests, resizes, theme changes. *)
Definition earlierThan (n : nat) (e : CardEvent) : bool :=
  match e with
  | FetchSettled id _ => bool_decide (id < n)
  | DebouncedResize _ | ThemeChanged _ => true
  | SelectThread _ | Revalidate => false
  end.

(** The [:thread] values the selector offers. *)
Definition threadValues : list string :=
  itemValue <$> [Item_svMain; Item_svSync; Item_svNetwork].

(** The [contentNode] of a render. *)
Inductive ContentNode :=
| NoContent
| ChartElement (props : FullPerfChartProps)
| Spinner
| ErrorElement (error : JsError).

#[global] Instance ContentNode_eq_dec : EqDecision ContentNode.
Proof. solve_decision. Defined.

Definition contentNode (s : CardState) : ContentNode :=
  match data (swrChartApiResp s) with
  | Some d =>
      ChartElement
        {| threadName := selectedThread s;
           apiData := Some d;
           width := (chartSize s).1;
           height := (chartSize s).2;
           isDarkMode := darkMode s |}
  | None =>
      if isLoading (swrChartApiResp s) then Spinner
      else match error (swrChartApiResp s) with
           | Some e => ErrorElement e
           | None => NoContent
           end
  end.

(** The requests an event adds to the log. *)
Definition requestsAddedBy (compare : ObjRef → ObjRef → bool)
    (policy : StalePolicy) (s : CardState) (e : CardEvent) : list Request :=
  drop (length (requests s)) (requests (cardStep compare policy s e)).

(** A resize that reports a size whose width and height are both truthy. *)
Definition sizedResize (e : CardEvent) : bool :=
  match e with
  | DebouncedResize size => truthy size.1 && truthy size.2
  | _ => false
  end.

(** The outcome of a fetch that carries a response object. *)
Definition deliversData (e : CardEvent) : bool :=
  match e with
  | FetchSettled _ (Resolves (Some _)) => true
  | _ => false
  end.

(** The outcome of a fetch, whatever it is. *)
Definition isFetchSettled (e : CardEvent) : bool :=
  match e with
  | FetchSettled _ _ => true
  | _ => false
  end.

(** ** The chart surface, over the charting helpers *)

Section ChartModel.

Context `{ChartingUtils}.

(** The API response objects, by address.  The source never writes to a
    response object, so an address determines its content. *)
Variable apiStore : ObjRef → PerfChartApiSuccessResp.

(** The object built by the [useMemo] callback: [...parsed], then
    [bucketLabels] and [cursorSetter].  It is a fresh object every time the
    callback runs; [objectId] is its address. *)
Record ProcessedData := {
  objectId : ObjRef;
  pd_lifespans : list Lifespan;
  pd_rest : ParsedRest;
  bucketLabels : list string;
  cursorSetter : CursorSetter;
}.

(** The argument object of [drawFullPerfChart]. *)
Record DrawArgs := {
  arg_svgRef : SVGSVGElement;
  arg_canvasRef : HTMLCanvasElement;
  arg_size : number * number;
  arg_margins : Margins;
  arg_isDarkMode : bool;
  arg_lifespans : list Lifespan;
  arg_rest : ParsedRest;
  arg_bucketLabels : list string;
  arg_cursorSetter : CursorSetter;
}.

(** The dependency array of [useMemo]: [[apiData, threadName, isDarkMode]]. *)
Definition MemoDeps : Type := option ObjRef * string * bool.

(** The dependencies of the drawing effect that can change:
    [[processedData, width, height]] ([svgRef] and [canvasRef] are the same
    two ref objects for the life of the component). *)
Definition EffectDeps : Type := option ObjRef * number * number.

(** What the chart does that can be observed from outside. *)
Inductive ChartEvent :=
| MemoComputed (deps : MemoDeps)
| DrawFullPerfChart (args : DrawArgs).

(** The hook state of one mounted [FullPerfChart]. *)
Record ChartHooks := {
  memoCell : option (MemoDeps * option ProcessedData);
  svgRef_current : option SVGSVGElement;
  canvasRef_current : option HTMLCanvasElement;
  effectDeps : option EffectDeps;
  nextObjectId : ObjRef;
  memoProps : option FullPerfChartProps;
}.

Definition initialHooks : ChartHooks :=
  {| memoCell := None; svgRef_current := None; canvasRef_current := None;
     effectDeps := None; nextObjectId := 0; memoProps := None |}.

Definition memoDepsOf (p : FullPerfChartProps) : MemoDeps :=
  (apiData p, threadName p, isDarkMode p).

(** React's comparison of two dependency arrays: [Object.is], item by item. *)
Definition sameMemoDeps (a b : MemoDeps) : bool :=
  Object_is a.1.1 b.1.1 && Object_is a.1.2 b.1.2 && Object_is a.2 b.2.

Definition sameEffectDeps (a b : EffectDeps) : bool :=
  Object_is a.1.1 b.1.1 && Object_is a.1.2 b.1.2 && Object_is a.2 b.2.

(** The [useMemo] callback, building its result at address [fresh]. *)
Definition computeProcessedData (p : FullPerfChartProps) (setCursor : ObjRef)
    (fresh : ObjRef) : option ProcessedData :=
  match apiData p with
  | None => None
  | Some a =>
      let bucketTicketsEstimatedTime :=
        getBucketTicketsEstimatedTime (boundaries (apiStore a)) in
      let perfProcessor (perfLog : SvRtPerfCountsThreadType Buckets) :=
        getTimeWeightedHistogram (buckets perfLog) bucketTicketsEstimatedTime in
      match processPerfLog (threadPerfLog (apiStore a)) perfProcessor with
      | None => None
      | Some parsed =>
          Some {| objectId := fresh;
                  pd_lifespans := lifespans parsed;
                  pd_rest := parsedRest parsed;
                  bucketLabels := formatTickBoundary <$> boundaries (apiStore a);
                  cursorSetter :=
                    {| captured_setCursor := setCursor;
                       captured_threadName := threadName p |} |}
      end
  end.

(** [useMemo]: the cached value when the dependencies are those of the cell,
    else the callback's result.  The flag tells whether the callback ran. *)
Definition useMemo (cell : option (MemoDeps * option ProcessedData))
    (deps : MemoDeps) (callback : option ProcessedData) :
    option ProcessedData * bool :=
  match cell with
  | Some (d, v) => if sameMemoDeps d deps then (v, false) else (callback, true)
  | None => (callback, true)
  end.

Record Rendered := {
  output : option (SVGSVGElement * HTMLCanvasElement);
  processedData : option ProcessedData;
  recomputed : bool;
  hooksAfterRender : ChartHooks;
}.

(** One run of the function component: its hooks in order, then the JSX it
    returns ([None] for [null]). *)
Definition FullPerfChart_render (p : FullPerfChartProps) (setCursor : ObjRef)
    (h : ChartHooks) : Rendered :=
  let deps := memoDepsOf p in
  let '(pd, ran) :=
    useMemo (memoCell h) deps (computeProcessedData p setCursor (nextObjectId h)) in
  let allocated :=
    if ran then match pd with Some _ => 1 | None => 0 end else 0 in
  {| output :=
       if negb (truthy (width p)) || negb (truthy (height p)) then None
       else Some ({| svg_width := width p; svg_height := height p |},
                  {| canvas_width := sub (sub (width p) (left margins)) (right margins);
                     canvas_height := sub (sub (height p) (top margins)) (bottom margins);
                     canvas_top := top margins;
                     canvas_left := left margins |});
     processedData := pd;
     recomputed := ran;
     hooksAfterRender :=
       {| memoCell := Some (deps, pd);
          svgRef_current := svgRef_current h;
          canvasRef_current := canvasRef_current h;
          effectDeps := effectDeps h;
          nextObjectId := nextObjectId h + allocated;
          memoProps := Some p |} |}.

(** The body of the drawing effect, run after the refs are attached. *)
Definition drawEffect (p : FullPerfChartProps) (pd : option ProcessedData)
    (svg : option SVGSVGElement) (canvas : option HTMLCanvasElement) :
    list ChartEvent :=
  match pd, svg, canvas with
  | Some d, Some s, Some c =>
      if negb (truthy (width p)) || negb (truthy (height p)) then []
      else if emptyLength (pd_lifespans d) then []
      else [ DrawFullPerfChart
               {| arg_svgRef := s;
                  arg_canvasRef := c;
                  arg_size := (width p, height p);
                  arg_margins := margins;
                  arg_isDarkMode := isDarkMode p;
                  arg_lifespans := pd_lifespans d;
                  arg_rest := pd_rest d;
                  arg_bucketLabels := bucketLabels d;
                  arg_cursorSetter := cursorSetter d |} ]
  | _, _, _ => []
  end.

(** Render, commit, effects.  Committing attaches each ref to its element
    when the render returned the two elements and detaches it when the render
    returned [null]; the effect then runs if one of its dependencies differs
    from the previous commit's (always on mount). *)
Definition FullPerfChart_update (p : FullPerfChartProps) (setCursor : ObjRef)
    (h : ChartHooks) : ChartHooks * list ChartEvent :=
  let r := FullPerfChart_render p setCursor h in
  let svg := fst <$> output r in
  let canvas := snd <$> output r in
  let deps : EffectDeps := (objectId <$> processedData r, width p, height p) in
  let runs :=
    match effectDeps h with
    | Some d => negb (sameEffectDeps d deps)
    | None => true
    end in
  ({| memoCell := memoCell (hooksAfterRender r);
      svgRef_current := svg;
      canvasRef_current := canvas;
      effectDeps := Some deps;
      nextObjectId := nextObjectId (hooksAfterRender r);
      memoProps := memoProps (hooksAfterRender r) |},
   (if recomputed r then [MemoComputed (memoDepsOf p)] else []) ++
   (if runs then drawEffect p (processedData r) svg canvas else [])).

(** The component as exported: wrapped in [memo], it is not rendered again
    when every prop is [Object.is] the one of the previous render. *)
Definition FullPerfChart (p : FullPerfChartProps) (setCursor : ObjRef)
    (h : ChartHooks) : ChartHooks * list ChartEvent :=
  match memoProps h with
  | Some q => if Object_is q p then (h, []) else FullPerfChart_update p setCursor h
  | None => FullPerfChart_update p setCursor h
  end.

(** A mounted chart fed a sequence of props (with the setter its cursor hook
    returned at each one), from the mount on. *)
Definition chartStep (st : ChartHooks * list ChartEvent)
    (x : FullPerfChartProps * ObjRef) : ChartHooks * list ChartEvent :=
  let '(h, evs) := FullPerfChart x.1 x.2 st.1 in (h, st.2 ++ evs).

Definition chartRun (history : list (FullPerfChartProps * ObjRef)) :
    ChartHooks * list ChartEvent :=
  foldl chartStep (initialHooks, []) history.

Definition drawCalls (evs : list ChartEvent) : list DrawArgs :=
  omap (λ e, match e with DrawFullPerfChart a => Some a | _ => None end) evs.


(** [processPerfLog(apiData.threadPerfLog, perfProcessor)] for the response
    object at address [a], as the [useMemo] callback calls it. *)
Definition parsedPerfLog (a : ObjRef) :
    option (ParsedPerfLog Lifespan ParsedRest) :=
  processPerfLog (threadPerfLog (apiStore a))
    (λ perfLog, getTimeWeightedHistogram (buckets perfLog)
                  (getBucketTicketsEstimatedTime (boundaries (apiStore a)))).

(** The memo cell holds what the callback returned for the dependencies it
    is filed under. *)
Definition memoCellSound (h : ChartHooks) : Prop :=
  ∀ deps v, memoCell h = Some (deps, v) →
    ∃ q setCursor fresh,
      memoDepsOf q = deps ∧ v = computeProcessedData q setCursor fresh.

(** What a commit leaves in the hooks: the memo cell and the effect's
    dependencies are those of the props last rendered, and the address of the
    memoized object, if any, has been handed out already. *)
Definition hooksCoherent (h : ChartHooks) : Prop :=
  match memoProps h with
  | None => memoCell h = None ∧ effectDeps h = None
  | Some q =>
      ∃ v, memoCell h = Some (memoDepsOf q, v)
           ∧ effectDeps h = Some (objectId <$> v, width q, height q)
           ∧ ∀ pd, v = Some pd → objectId pd < nextObjectId h
  end.

(** ** The card with its chart *)

(** The card together with the [FullPerfChart] it has mounted, if its
    [contentNode] is the chart element, and what that chart has done so
    far. *)
Record WidgetState := {
  card : CardState;
  chart : option ChartHooks;
  chartLog : list ChartEvent;
}.

(** Rendering [{contentNode}] inside the resize container: the chart element
    keeps the hooks of the chart already mounted there, or mounts a new
    chart; any other content unmounts the chart. *)
Definition renderContent (setCursor : ObjRef) (s : CardState)
    (mounted : option ChartHooks) : option ChartHooks * list ChartEvent :=
  match contentNode s with
  | ChartElement props =>
      let '(h, evs) :=
        FullPerfChart props setCursor (default initialHooks mounted) in
      (Some h, evs)
  | _ => (None, [])
  end.

Definition widgetMount (dark : bool) (setCursor : ObjRef) : WidgetState :=
  let '(c, evs) := renderContent setCursor (mount dark) None in
  {| card := mount dark; chart := c; chartLog := evs |}.

(** One event of the card, with the setter the chart's cursor hook returns
    in the render that follows. *)
Definition widgetStep (compare : ObjRef → ObjRef → bool)
    (policy : StalePolicy) (w : WidgetState) (x : CardEvent * ObjRef) :
    WidgetState :=
  let s := cardStep compare policy (card w) x.1 in
  let '(c, evs) := renderContent x.2 s (chart w) in
  {| card := s; chart := c; chartLog := chartLog w ++ evs |}.

Definition widgetRun (compare : ObjRef → ObjRef → bool)
    (policy : StalePolicy) (dark : bool) (setCursor : ObjRef)
    (events : list (CardEvent * ObjRef)) : WidgetState :=
  foldl (widgetStep compare policy) (widgetMount dark setCursor) events.

(** The chart mounted in the card is there exactly when the card's content
    is the chart element; its hooks are those of a commit of that element's
    props. *)
Definition widgetCoherent (w : WidgetState) : Prop :=
  match contentNode (card w) with
  | ChartElement props =>
      ∃ h, chart w = Some h ∧ memoProps h = Some props
           ∧ hooksCoherent h ∧ memoCellSound h
  | _ => chart w = None
  end.

End ChartModel.

(** * Properties *)

(** ** ChartErrorMessage *)

Lemma errorMessageMaps_unknown (msg : string) :
  msg ∉ knownErrorTags → errorMessageMaps !! msg = None.
Proof.
  intros Hn. unfold errorMessageMaps.
  rewrite !lookup_insert_ne, lookup_singleton_ne; [done | ..];
    intros <-; apply Hn; unfold knownErrorTags; set_solver.
Qed.

(** Each tag of the taxonomy shows its own fixed text. *)
Lemma ChartErrorMessage_known_tags :
  displayedText (ChartErrorMessage (BackendApiError "bad_request"))
    = Some "Chart data loading failed: bad request."
  ∧ displayedText (ChartErrorMessage (BackendApiError "invalid_thread_name"))
    = Some "Chart data loading failed: invalid thread name."
  ∧ displayedText (ChartErrorMessage (BackendApiError "data_unavailable"))
    = Some "Chart data loading failed: data not yet available."
  ∧ displayedText (ChartErrorMessage (BackendApiError "not_enough_data"))
    = Some ("There is not enough data to display the chart just yet." +:+
            "The chart requires at least 30 minutes of server runtime data to be available.").
Proof. repeat split; vm_compute; reflexivity. Qed.

(** X1: a message that is neither a tag nor a name inherited from
    [Object.prototype] falls back to the generic text. *)
Lemma ChartErrorMessage_fallback (msg : string) :
  msg ∉ knownErrorTags → msg ∉ ObjectPrototype_keys →
  ChartErrorMessage (BackendApiError msg) =
    Element "div"
      "absolute inset-0 flex flex-col items-center justify-center text-2xl text-muted-foreground"
      [ Text "Unknown BackendApiError" ].
Proof.
  intros Htag Hproto. unfold ChartErrorMessage, getProperty.
  rewrite (errorMessageMaps_unknown _ Htag).
  destruct (decide (msg ∈ ObjectPrototype_keys)); [contradiction | reflexivity].
Qed.

(** C2: a [BackendApiError] whose message is one of the four tags shows that
    tag's text and any other message shows "Unknown BackendApiError".  The
    code departs from this at a message that names a member of
    [Object.prototype]: for "constructor", which is none of the four tags, the
    lookup in the object literal finds the inherited function, [??] keeps it,
    and the panel shows no text at all instead of the fallback. *)
Theorem ChartErrorMessage_inherited_key :
  ("constructor" ∉ knownErrorTags)
  ∧ ChartErrorMessage (BackendApiError "constructor") =
      Element "div"
        "absolute inset-0 flex flex-col items-center justify-center text-2xl text-muted-foreground"
        [ InheritedValue "constructor" ]
  ∧ displayedText (ChartErrorMessage (BackendApiError "constructor")) = Some ""
  ∧ displayedText (ChartErrorMessage (BackendApiError "constructor"))
      ≠ Some "Unknown BackendApiError".
Proof.
  split; [| split; [| split]].
  - unfold knownErrorTags. intros Hin.
    repeat (apply elem_of_cons in Hin as [Heq | Hin]; [discriminate Heq |]).
    by apply elem_of_nil in Hin.
  - unfold ChartErrorMessage, getProperty.
    rewrite errorMessageMaps_unknown.
    + reflexivity.
    + unfold knownErrorTags. intros Hin.
      repeat (apply elem_of_cons in Hin as [Heq | Hin]; [discriminate Heq |]).
      by apply elem_of_nil in Hin.
  - vm_compute. reflexivity.
  - vm_compute. discriminate.
Qed.

(** ** FullPerfCard: the requests it sends *)

Section CardProperties.

(** The [compare] the fetch layer is configured with. *)
Variable compare : ObjRef → ObjRef → bool.

Lemma cardRun_app (policy : StalePolicy) (s : CardState)
    (evs1 evs2 : list CardEvent) :
  cardRun compare policy s (evs1 ++ evs2)
  = cardRun compare policy (cardRun compare policy s evs1) evs2.
Proof. apply foldl_app. Qed.

Lemma itemValue_threadValues (i : SelectItem) : itemValue i ∈ threadValues.
Proof. unfold threadValues. destruct i; simpl; set_solver. Qed.

(** C4, as the code has it: selecting a thread other than the selected one
    starts exactly one fetch, keyed to the new thread; selecting the thread
    that is already selected starts none.  Either way the selection is the
    item's value afterwards. *)
Theorem select_thread_refetch (policy : StalePolicy) (s : CardState)
    (i : SelectItem) :
  requestsAddedBy compare policy s (SelectThread i) =
    (if decide (selectedThread s = itemValue i) then []
     else [chartApi (itemValue i)])
  ∧ selectedThread (cardStep compare policy s (SelectThread i)) = itemValue i.
Proof.
  unfold requestsAddedBy, cardStep, Object_is.
  case_bool_decide as Heq; case_decide; try contradiction; simpl.
  - split; [apply drop_all | assumption].
  - split; [apply drop_app_length | reflexivity].
Qed.

(** C4 as stated fails on a freshly mounted card: [svMain] is the selected
    thread, and selecting it sends nothing. *)
Lemma select_current_thread_no_refetch :
  selectedThread (mount false) = itemValue Item_svMain
  ∧ requestsAddedBy sampleCompare DropStaleData (mount false)
      (SelectThread Item_svMain) = []
  ∧ requestsAddedBy sampleCompare DropStaleData (mount false) (SelectThread Item_svMain)
      ≠ [chartApi (itemValue Item_svMain)].
Proof. repeat split. vm_compute. discriminate. Qed.

Lemma cardStep_wellformed (policy : StalePolicy) (P : Request → Prop)
    (s : CardState) (e : CardEvent) :
  (∀ i, P (chartApi (itemValue i))) →
  (∃ i, selectedThread s = itemValue i) ∧ Forall P (requests s) →
  (∃ i, selectedThread (cardStep compare policy s e) = itemValue i)
  ∧ Forall P (requests (cardStep compare policy s e)).
Proof.
  intros HP [[j Hj] Hreqs]. destruct e as [i | size | dark | | id o]; simpl.
  - unfold Object_is. case_bool_decide.
    + eauto.
    + simpl. split; [eauto |]. apply Forall_app. split; [assumption |].
      constructor; [apply HP | constructor].
  - eauto.
  - eauto.
  - split; [eauto |]. apply Forall_app. split; [assumption |].
    rewrite Hj. constructor; [apply HP | constructor].
  - case_decide; simpl; eauto.
Qed.

(** C6: the selection starts at [svMain], and whatever the user, the resize
    container and the fetch layer do after the mount, every request in the
    log is a GET of [/perfChartData/:thread/] whose only path parameter is
    [thread], set to one of the three values of the selector. *)
Theorem requests_use_fixed_threads (policy : StalePolicy) (dark : bool)
    (events : list CardEvent) :
  selectedThread firstRender = "svMain"
  ∧ Forall (λ r, method r = "GET"
                 ∧ path r = "/perfChartData/:thread/"
                 ∧ ∃ t, t ∈ ["svMain"; "svSync"; "svNetwork"]
                        ∧ pathParams r = {[ "thread" := t ]})
      (requests (cardRun compare policy (mount dark) events)).
Proof.
  split; [reflexivity |].
  set (P := λ r : Request, _).
  assert (HP : ∀ i, P (chartApi (itemValue i))).
  { intros i. unfold P. simpl. repeat split. exists (itemValue i).
    split; [apply itemValue_threadValues | reflexivity]. }
  cut ((∃ i, selectedThread (cardRun compare policy (mount dark) events) = itemValue i)
       ∧ Forall P (requests (cardRun compare policy (mount dark) events))).
  { intros [_ Hall]. exact Hall. }
  assert (Hmount : (∃ i, selectedThread (mount dark) = itemValue i)
                   ∧ Forall P (requests (mount dark))).
  { split; [by exists Item_svMain |].
    repeat constructor; apply (HP Item_svMain). }
  revert Hmount. generalize (mount dark). unfold cardRun.
  induction events as [| e events IH]; intros s Hs; simpl; [exact Hs |].
  apply IH. by apply cardStep_wellformed.
Qed.

(** ** FullPerfCard: what it shows *)

(** Outcomes of earlier requests, resizes and theme changes leave the
    selection, the request log and the latest-fetch mark alone, and keep
    request [n] and later ones in flight. *)
Lemma earlier_events_preserve (policy : StalePolicy) (n : nat)
    (evs : list CardEvent) (s : CardState) :
  forallb (earlierThan n) evs = true →
  selectedThread (cardRun compare policy s evs) = selectedThread s
  ∧ requests (cardRun compare policy s evs) = requests s
  ∧ latestFetch (cardRun compare policy s evs) = latestFetch s
  ∧ (∀ t, n ≤ t → t ∈ inFlight s →
          t ∈ inFlight (cardRun compare policy s evs)).
Proof.
  revert s. unfold cardRun.
  induction evs as [| e evs IH]; intros s Hall; simpl in *; [done |].
  apply andb_prop in Hall as [He Hall].
  destruct (IH (cardStep compare policy s e) Hall) as (Hsel & Hreq & Hlatest & Hfl).
  rewrite Hsel, Hreq, Hlatest. clear IH Hsel Hreq Hlatest.
  destruct e as [i | size | dark | | id o]; simpl in *; try discriminate;
    try (repeat split; auto; fail).
  apply bool_decide_eq_true in He.
  case_decide; simpl; repeat split; auto.
  intros t Ht Hin. apply Hfl; [assumption |]. simpl.
  apply elem_of_difference. split; [assumption |].
  rewrite elem_of_singleton. lia.
Qed.

(** Once the latest request has delivered its data, a fetch layer that drops
    stale data keeps it whatever earlier requests deliver afterwards. *)
Lemma stale_outcomes_keep_data (policy : StalePolicy) (t : nat) (d : ObjRef)
    (evs : list CardEvent) (s : CardState) :
  policy ≠ WriteEvery →
  latestFetch s = Some t →
  data (swrChartApiResp s) = Some d →
  forallb (earlierThan t) evs = true →
  data (swrChartApiResp (cardRun compare policy s evs)) = Some d.
Proof.
  intros Hpol. revert s. unfold cardRun.
  induction evs as [| e evs IH]; intros s Hlatest Hdata Hall; simpl in *;
    [assumption |].
  apply andb_prop in Hall as [He Hall].
  destruct e as [i | size | dark | | id o]; simpl in He; try discriminate;
    try (apply IH; assumption).
  apply bool_decide_eq_true in He.
  apply IH; [| | assumption]; simpl;
    destruct (decide (id ∈ inFlight s)); simpl; try assumption.
  unfold writes, Object_is. rewrite Hlatest.
  destruct policy; [contradiction | |].
  - destruct (fetcher o) as [d' | err]; simpl; [| assumption].
    case_bool_decide as Heq; [| assumption].
    injection Heq as ->. lia.
  - case_bool_decide as Heq; [| assumption].
    injection Heq as ->. lia.
Qed.

(** Data, once there, is never taken out of the cache entry. *)
Lemma data_never_cleared (policy : StalePolicy) (evs : list CardEvent)
    (s : CardState) :
  is_Some (data (swrChartApiResp s)) →
  is_Some (data (swrChartApiResp (cardRun compare policy s evs))).
Proof.
  revert s. unfold cardRun.
  induction evs as [| e evs IH]; intros s Hs; simpl; [assumption |].
  apply IH. destruct e as [i | size | dark | | id o]; simpl; try assumption.
  - unfold Object_is. case_bool_decide; assumption.
  - case_decide; simpl; [| assumption].
    destruct (writes policy (latestFetch s) id (fetcher o)); [| assumption].
    destruct (fetcher o) as [d | err]; simpl; [| assumption].
    destruct (data (swrChartApiResp s)) as [cached |]; [| eauto].
    destruct (compare cached d); eauto.
Qed.

(** C9: the three branches of [contentNode] exclude one another in a fixed
    order.  With data in the cache entry the chart element is rendered,
    whatever the error and loading fields hold; without data a loading entry
    renders the spinner, whatever the error field holds; without data and not
    loading, an error renders the error panel (and nothing is rendered when
    there is no error either).  In particular, once a fetch has delivered
    data, no later event, a failing fetch included, makes the card render
    anything but the chart element. *)
Theorem contentNode_precedence (policy : StalePolicy) (dark : bool)
    (s : CardState) (d : ObjRef) (err : option JsError) (e : JsError)
    (loading : bool) (evs : list CardEvent) :
  let withResp (r : SWRResponse) :=
    {| chartSize := chartSize s; selectedThread := selectedThread s;
       darkMode := darkMode s; swrChartApiResp := r; requests := requests s;
       inFlight := inFlight s; latestFetch := latestFetch s |} in
  contentNode (withResp {| data := Some d; error := err; isLoading := loading |})
    = ChartElement {| threadName := selectedThread s; apiData := Some d;
                      width := (chartSize s).1; height := (chartSize s).2;
                      isDarkMode := darkMode s |}
  ∧ contentNode (withResp {| data := None; error := err; isLoading := true |})
    = Spinner
  ∧ contentNode (withResp {| data := None; error := Some e; isLoading := false |})
    = ErrorElement e
  ∧ contentNode (withResp {| data := None; error := None; isLoading := false |})
    = NoContent
  ∧ ∃ props,
      contentNode (cardRun compare policy (mount dark)
                     (FetchSettled 1 (Resolves (Some d)) :: evs))
        = ChartElement props.
Proof.
  intros withResp. repeat (split; [reflexivity |]).
  change (cardRun compare policy (mount dark) (FetchSettled 1 ?o :: evs))
    with (cardRun compare policy
            (cardStep compare policy (mount dark) (FetchSettled 1 o)) evs).
  assert (Hd : is_Some (data (swrChartApiResp
             (cardStep compare policy (mount dark) (FetchSettled 1 (Resolves (Some d))))))).
  { exists d. destruct policy; reflexivity. }
  destruct (data_never_cleared policy evs _ Hd) as [d' Hd'].
  unfold contentNode. rewrite Hd'. eexists. reflexivity.
Qed.

(** C10: a falsy body makes the fetcher throw a plain [Error] with message
    [empty_response].  It is no [BackendApiError], so [ChartErrorMessage]
    takes its generic branch and shows "Error: empty_response" in the
    destructive style, where a [BackendApiError] with that message would have
    shown "Unknown BackendApiError"; on a card with no data yet, that is what
    the card renders once the request has settled. *)
Theorem empty_response_is_plain_error (policy : StalePolicy) (dark : bool) :
  fetcher (Resolves None) = inr (Error "empty_response")
  ∧ ChartErrorMessage (Error "empty_response") =
      Element "div"
        "absolute inset-0 flex flex-col items-center justify-center text-2xl text-destructive-inline"
        [ Text "Error: "; Text "empty_response" ]
  ∧ displayedText (ChartErrorMessage (Error "empty_response"))
      = Some "Error: empty_response"
  ∧ displayedText (ChartErrorMessage (BackendApiError "empty_response"))
      = Some "Unknown BackendApiError"
  ∧ contentNode (cardRun compare policy (mount dark) [FetchSettled 1 (Resolves None)])
      = ErrorElement (Error "empty_response").
Proof.
  split; [reflexivity |]. split; [reflexivity |].
  split; [vm_compute; reflexivity |]. split; [vm_compute; reflexivity |].
  destruct policy; vm_compute; reflexivity.
Qed.

(** ** More on ChartErrorMessage *)

Lemma append_empty_r (s : string) : s +:+ "" = s.
Proof.
  induction s as [| c s IH]; [reflexivity |].
  change (String c s +:+ "") with (String c (s +:+ "")). by rewrite IH.
Qed.

Lemma knownErrorTags_cases (msg : string) :
  msg ∈ knownErrorTags →
  msg = "bad_request" ∨ msg = "invalid_thread_name"
  ∨ msg = "data_unavailable" ∨ msg = "not_enough_data".
Proof.
  unfold knownErrorTags. intros Hin.
  repeat (apply elem_of_cons in Hin as [-> | Hin]; [tauto |]).
  by apply elem_of_nil in Hin.
Qed.

(** X2: a plain [Error] always renders, as "Error: " followed by its message
    (the "Unknown Error" default is never reached), and a [BackendApiError]
    renders for every message but one: for "__proto__" the lookup in the
    object literal yields the prototype object, which React refuses as a
    child. *)
Theorem ChartErrorMessage_renders (msg : string) :
  displayedText (ChartErrorMessage (Error msg)) = Some ("Error: " +:+ msg)
  ∧ (displayedText (ChartErrorMessage (BackendApiError msg)) = None
     ↔ msg = "__proto__").
Proof.
  split.
  - simpl. by rewrite append_empty_r.
  - destruct (decide (msg ∈ knownErrorTags)) as [Htag | Htag].
    + apply knownErrorTags_cases in Htag as [-> | [-> | [-> | ->]]];
        (split; [vm_compute; discriminate | discriminate]).
    + unfold ChartErrorMessage, getProperty.
      rewrite (errorMessageMaps_unknown _ Htag).
      destruct (decide (msg ∈ ObjectPrototype_keys)) as [Hkey | Hkey]; simpl.
      * destruct (decide (msg = "__proto__")) as [-> | Hne]; simpl;
          [done | split; [discriminate | contradiction]].
      * split; [discriminate |]. intros ->. destruct Hkey.
        unfold ObjectPrototype_keys. set_solver.
Qed.

(** ** More on the card *)

(** X3: after the mount and any events, the last request of the log is the
    one for the thread that is selected now, and it is the request the fetch
    layer holds as the latest; in-flight requests are requests of the log. *)
Theorem latest_request_matches_selection (policy : StalePolicy) (dark : bool)
    (events : list CardEvent) :
  let s := cardRun compare policy (mount dark) events in
  last (requests s) = Some (chartApi (selectedThread s))
  ∧ latestFetch s = Some (length (requests s) - 1)
  ∧ ∀ id, id ∈ inFlight s → id < length (requests s).
Proof.
  cbv zeta.
  assert (Hmount :
    last (requests (mount dark)) = Some (chartApi (selectedThread (mount dark)))
    ∧ latestFetch (mount dark) = Some (length (requests (mount dark)) - 1)
    ∧ ∀ id, id ∈ inFlight (mount dark) → id < length (requests (mount dark))).
  { repeat split. simpl. intros id Hin.
    apply elem_of_union in Hin as [->%elem_of_singleton | Hin]; [lia |].
    apply elem_of_union in Hin as [->%elem_of_singleton | Hin]; [lia |].
    by apply elem_of_empty in Hin. }
  revert Hmount. generalize (mount dark). unfold cardRun.
  induction events as [| e events IH]; intros s Hs; simpl; [exact Hs |].
  apply IH. clear IH. destruct Hs as (Hlast & Hlatest & Hfl).
  assert (Hstart : ∀ s' : CardState,
    (∀ id, id ∈ inFlight s' → id < length (requests s')) →
    last (requests (startFetch s')) = Some (chartApi (selectedThread (startFetch s')))
    ∧ latestFetch (startFetch s') = Some (length (requests (startFetch s')) - 1)
    ∧ ∀ id, id ∈ inFlight (startFetch s') →
            id < length (requests (startFetch s'))).
  { intros s' Hfl'. simpl. rewrite last_snoc, length_app. simpl.
    repeat split; [f_equal; lia |].
    intros id [->%elem_of_singleton | Hin%Hfl']%elem_of_union; lia. }
  destruct e as [i | size | dark' | | id o]; simpl.
  - unfold Object_is. case_bool_decide; [done |]. by apply Hstart.
  - done.
  - done.
  - by apply Hstart.
  - case_decide; [| done]. simpl. repeat split; try assumption.
    intros id' [Hin _]%elem_of_difference. by apply Hfl.
Qed.

(** X4: until the outcome of a fetch arrives, the card shows the spinner,
    whatever the user selects, however the container is resized and however
    often the fetch layer revalidates. *)
Theorem spinner_until_first_outcome (policy : StalePolicy) (dark : bool)
    (events : list CardEvent) :
  forallb (λ e, negb (isFetchSettled e)) events = true →
  contentNode (cardRun compare policy (mount dark) events) = Spinner.
Proof.
  intros Hnone.
  cut (data (swrChartApiResp (cardRun compare policy (mount dark) events)) = None
       ∧ isLoading (swrChartApiResp (cardRun compare policy (mount dark) events)) = true).
  { intros [Hdata Hloading]. unfold contentNode. by rewrite Hdata, Hloading. }
  assert (Hmount : data (swrChartApiResp (mount dark)) = None
                   ∧ isLoading (swrChartApiResp (mount dark)) = true)
    by (split; reflexivity).
  revert Hnone Hmount. generalize (mount dark). unfold cardRun.
  induction events as [| e events IH]; intros s Hnone Hs; simpl in *;
    [exact Hs |].
  apply andb_prop in Hnone as [He Hnone]. apply IH; [assumption |].
  destruct Hs as [Hdata Hloading].
  destruct e as [i | size | dark' | | id o]; simpl in *; try discriminate;
    try (split; assumption).
  - unfold Object_is. case_bool_decide; [split; assumption |].
    simpl. rewrite Hdata. split; reflexivity.
  - rewrite Hdata. split; reflexivity.
Qed.

(** X5: selecting a thread while data is on screen leaves that data there,
    now labelled with the newly selected thread: nothing clears the cache
    entry when the selection changes (the source's FIXME). *)
Theorem selection_keeps_shown_data (policy : StalePolicy) (s : CardState)
    (i : SelectItem) (d : ObjRef) :
  data (swrChartApiResp s) = Some d →
  contentNode (cardStep compare policy s (SelectThread i)) =
    ChartElement {| threadName := itemValue i; apiData := Some d;
                    width := (chartSize s).1; height := (chartSize s).2;
                    isDarkMode := darkMode s |}.
Proof.
  intros Hdata. unfold cardStep, Object_is.
  case_bool_decide as Heq.
  - unfold contentNode. rewrite Hdata, Heq. reflexivity.
  - unfold contentNode. simpl. rewrite Hdata. reflexivity.
Qed.

(** X6: on a card without data, the failure of the latest request (a thrown
    error or a falsy body) puts the error panel of that very error on
    screen; the next fetch, started by the fetch layer or by a change of
    selection, puts the spinner back. *)
Theorem error_shown_until_next_fetch (policy : StalePolicy) (s : CardState)
    (id : nat) (o : ApiOutcome) (e : JsError) (i : SelectItem) :
  data (swrChartApiResp s) = None →
  id ∈ inFlight s →
  latestFetch s = Some id →
  fetcher o = inr e →
  itemValue i ≠ selectedThread s →
  let failed := cardStep compare policy s (FetchSettled id o) in
  contentNode failed = ErrorElement e
  ∧ contentNode (cardStep compare policy failed Revalidate) = Spinner
  ∧ contentNode (cardStep compare policy failed (SelectThread i)) = Spinner.
Proof.
  intros Hdata Hin Hlatest Ho Hi failed.
  assert (Hfailed : swrChartApiResp failed
                    = {| data := None; error := Some e; isLoading := false |}
                    ∧ selectedThread failed = selectedThread s).
  { unfold failed. simpl. rewrite decide_True by assumption. simpl.
    rewrite Ho, Hlatest, Hdata.
    assert (Hw : writes policy (Some id) id (inr e) = true).
    { unfold writes, Object_is. destruct policy; try reflexivity.
      by apply bool_decide_eq_true. }
    rewrite Hw. split; reflexivity. }
  destruct Hfailed as [Hresp Hsel].
  repeat split.
  - unfold contentNode. rewrite Hresp. reflexivity.
  - unfold contentNode. simpl. rewrite Hresp. reflexivity.
  - unfold contentNode, cardStep, Object_is. rewrite Hsel.
    case_bool_decide as Heq; [congruence |]. simpl. rewrite Hresp. reflexivity.
Qed.

End CardProperties.

(** ** FullPerfChart *)

Section ChartProperties.

Context `{ChartingUtils}.
Variable apiStore : ObjRef → PerfChartApiSuccessResp.
Variable compare : ObjRef → ObjRef → bool.

Lemma sameMemoDeps_spec (a b : MemoDeps) : sameMemoDeps a b = true ↔ a = b.
Proof.
  destruct a as [[a1 a2] a3], b as [[b1 b2] b3].
  unfold sameMemoDeps, Object_is. simpl.
  rewrite !andb_true_iff, !bool_decide_eq_true. split.
  - intros [[-> ->] ->]. reflexivity.
  - intros [= -> -> ->]. done.
Qed.

Lemma memoDepsOf_eq (p q : FullPerfChartProps) :
  memoDepsOf p = memoDepsOf q ↔
  apiData p = apiData q ∧ threadName p = threadName q
  ∧ isDarkMode p = isDarkMode q.
Proof.
  unfold memoDepsOf. split.
  - intros [= -> -> ->]. done.
  - intros (-> & -> & ->). reflexivity.
Qed.

(** The callback reads its props through the dependency key only. *)
Lemma computeProcessedData_key (p q : FullPerfChartProps)
    (setCursor fresh : ObjRef) :
  memoDepsOf p = memoDepsOf q →
  computeProcessedData apiStore p setCursor fresh
    = computeProcessedData apiStore q setCursor fresh.
Proof.
  intros (Ha & Ht & _)%memoDepsOf_eq. unfold computeProcessedData.
  rewrite Ha, Ht. reflexivity.
Qed.

Lemma computeProcessedData_Some (p : FullPerfChartProps)
    (setCursor fresh : ObjRef) (pd : ProcessedData) :
  computeProcessedData apiStore p setCursor fresh = Some pd →
  ∃ a parsed,
    apiData p = Some a ∧ parsedPerfLog apiStore a = Some parsed
    ∧ pd_lifespans pd = lifespans parsed
    ∧ bucketLabels pd = formatTickBoundary <$> boundaries (apiStore a).
Proof.
  unfold computeProcessedData, parsedPerfLog.
  destruct (apiData p) as [a |]; [| discriminate].
  destruct (processPerfLog _ _) as [parsed |] eqn:Hparsed; [| discriminate].
  intros [= <-]. exists a, parsed. simpl. done.
Qed.

(** What a render hands on as [processedData] is the callback's result for
    the current key, computed now or at an earlier render. *)
Lemma render_processedData (p : FullPerfChartProps) (setCursor : ObjRef)
    (h : ChartHooks) :
  memoCellSound apiStore h →
  ∃ setCursor' fresh,
    processedData (FullPerfChart_render apiStore p setCursor h)
      = computeProcessedData apiStore p setCursor' fresh.
Proof.
  intros Hsound. unfold FullPerfChart_render, useMemo.
  destruct (memoCell h) as [[deps v] |] eqn:Hcell; simpl.
  - destruct (sameMemoDeps deps (memoDepsOf p)) eqn:Hsame; simpl.
    + apply sameMemoDeps_spec in Hsame.
      destruct (Hsound deps v Hcell) as (q & sc & fresh & Hq & ->).
      exists sc, fresh. apply computeProcessedData_key. congruence.
    + eauto.
  - eauto.
Qed.

Lemma render_memoCellSound (p : FullPerfChartProps) (setCursor : ObjRef)
    (h : ChartHooks) :
  memoCellSound apiStore h →
  memoCellSound apiStore
    (hooksAfterRender (FullPerfChart_render apiStore p setCursor h)).
Proof.
  intros Hsound deps v.
  destruct (render_processedData p setCursor h Hsound) as (sc & fresh & Hpd).
  revert Hpd. unfold FullPerfChart_render.
  destruct (useMemo _ _ _) as [pd ran]. simpl.
  intros -> [= <- <-]. eauto.
Qed.

Lemma FullPerfChart_memoCellSound (p : FullPerfChartProps) (setCursor : ObjRef)
    (h : ChartHooks) :
  memoCellSound apiStore h →
  memoCellSound apiStore (FullPerfChart apiStore p setCursor h).1.
Proof.
  intros Hsound.
  assert (Hupd :
    memoCellSound apiStore (FullPerfChart_update apiStore p setCursor h).1).
  { intros deps v Hcell. unfold FullPerfChart_update in Hcell.
    simpl in Hcell.
    by apply (render_memoCellSound p setCursor h Hsound). }
  unfold FullPerfChart. destruct (memoProps h) as [q |]; [| exact Hupd].
  destruct (Object_is q p); [exact Hsound | exact Hupd].
Qed.

Lemma chartRun_memoCellSound (history : list (FullPerfChartProps * ObjRef)) :
  memoCellSound apiStore (chartRun apiStore history).1.
Proof.
  unfold chartRun.
  assert (Hinit : memoCellSound apiStore (initialHooks, @nil ChartEvent).1)
    by (intros deps v [=]).
  revert Hinit. generalize (initialHooks, @nil ChartEvent).
  induction history as [| x history IH]; intros st Hst; simpl; [exact Hst |].
  apply IH. unfold chartStep.
  pose proof (FullPerfChart_memoCellSound x.1 x.2 st.1 Hst) as Hnext.
  destruct (FullPerfChart apiStore x.1 x.2 st.1). exact Hnext.
Qed.

Lemma truthy_nonzero (n : number) :
  truthy n = true → n ≠ Int 0 ∧ n ≠ NegZero ∧ n ≠ NaN.
Proof.
  intros Htruthy.
  repeat split; intros ->; vm_compute in Htruthy; discriminate.
Qed.

(** The effect body draws at most once, and only past both of its guards. *)
Lemma drawEffect_draws (p : FullPerfChartProps) (pd : option ProcessedData)
    (svg : option SVGSVGElement) (canvas : option HTMLCanvasElement)
    (args : DrawArgs) :
  args ∈ drawCalls (drawEffect p pd svg canvas) →
  ∃ d s c,
    pd = Some d ∧ svg = Some s ∧ canvas = Some c
    ∧ truthy (width p) = true ∧ truthy (height p) = true
    ∧ pd_lifespans d ≠ []
    ∧ args = {| arg_svgRef := s; arg_canvasRef := c;
                arg_size := (width p, height p); arg_margins := margins;
                arg_isDarkMode := isDarkMode p;
                arg_lifespans := pd_lifespans d; arg_rest := pd_rest d;
                arg_bucketLabels := bucketLabels d;
                arg_cursorSetter := cursorSetter d |}.
Proof.
  unfold drawEffect.
  destruct pd as [d |], svg as [s |], canvas as [c |];
    try (intros Hin; by apply elem_of_nil in Hin).
  destruct (truthy (width p)) eqn:Hw, (truthy (height p)) eqn:Hh; simpl;
    try (intros Hin; by apply elem_of_nil in Hin).
  destruct (pd_lifespans d) as [| l ls] eqn:Hls; simpl;
    [intros Hin; by apply elem_of_nil in Hin |].
  intros Hin%list_elem_of_singleton. exists d, s, c. rewrite Hls.
  repeat split; done.
Qed.

Lemma update_draws (p : FullPerfChartProps) (setCursor : ObjRef)
    (h : ChartHooks) (args : DrawArgs) :
  args ∈ drawCalls (FullPerfChart_update apiStore p setCursor h).2 →
  args ∈ drawCalls
    (drawEffect p (processedData (FullPerfChart_render apiStore p setCursor h))
       (svgRef_current (FullPerfChart_update apiStore p setCursor h).1)
       (canvasRef_current (FullPerfChart_update apiStore p setCursor h).1)).
Proof.
  unfold FullPerfChart_update. simpl. unfold drawCalls at 1.
  rewrite omap_app, elem_of_app. intros [Hin | Hin].
  - destruct (recomputed _); simpl in Hin; by apply elem_of_nil in Hin.
  - destruct (match effectDeps h with Some _ => _ | None => _ end);
      [exact Hin | by apply elem_of_nil in Hin].
Qed.

Lemma FullPerfChart_draws (p : FullPerfChartProps) (setCursor : ObjRef)
    (h : ChartHooks) (args : DrawArgs) :
  args ∈ drawCalls (FullPerfChart apiStore p setCursor h).2 →
  FullPerfChart apiStore p setCursor h
    = FullPerfChart_update apiStore p setCursor h.
Proof.
  unfold FullPerfChart. destruct (memoProps h) as [q |]; [| reflexivity].
  destruct (Object_is q p); [| reflexivity].
  intros Hin. by apply elem_of_nil in Hin.
Qed.

(** C1: on a mounted chart, whatever props it has been given before, a
    render calls [drawFullPerfChart] only if the view model of that render
    exists, both refs are attached once the render is committed, width and
    height are neither a zero nor [NaN], and the view model has a lifespan; its
    lifespans are those [processPerfLog] returns for the current [apiData],
    and the call receives the two elements, the size, the margins, the
    dark-mode flag and the fields of the view model.  In particular a
    response whose snapshot sequence yields no lifespans is never drawn,
    whatever the size. *)
Theorem draw_only_when_ready (history : list (FullPerfChartProps * ObjRef))
    (p : FullPerfChartProps) (setCursor : ObjRef) :
  let h := (chartRun apiStore history).1 in
  let res := FullPerfChart apiStore p setCursor h in
  (∀ args, args ∈ drawCalls res.2 →
     ∃ pd svg canvas a parsed,
       processedData (FullPerfChart_render apiStore p setCursor h) = Some pd
       ∧ svgRef_current res.1 = Some svg
       ∧ canvasRef_current res.1 = Some canvas
       ∧ (width p ≠ Int 0 ∧ width p ≠ NegZero ∧ width p ≠ NaN)
       ∧ (height p ≠ Int 0 ∧ height p ≠ NegZero ∧ height p ≠ NaN)
       ∧ apiData p = Some a
       ∧ parsedPerfLog apiStore a = Some parsed
       ∧ pd_lifespans pd = lifespans parsed
       ∧ lifespans parsed ≠ []
       ∧ args = {| arg_svgRef := svg; arg_canvasRef := canvas;
                   arg_size := (width p, height p); arg_margins := margins;
                   arg_isDarkMode := isDarkMode p;
                   arg_lifespans := pd_lifespans pd; arg_rest := pd_rest pd;
                   arg_bucketLabels := bucketLabels pd;
                   arg_cursorSetter := cursorSetter pd |})
  ∧ ((∀ a parsed, apiData p = Some a → parsedPerfLog apiStore a = Some parsed →
        lifespans parsed = []) →
     drawCalls res.2 = []).
Proof.
  intros h res.
  match goal with |- ?necessary ∧ _ => assert (Hmain : necessary) end.
  { intros args Hin. unfold res in *.
    pose proof (FullPerfChart_draws _ _ _ _ Hin) as Hupd.
    rewrite Hupd in Hin |- *.
    apply update_draws, drawEffect_draws in Hin
      as (d & s & c & Hpd & Hsvg & Hcanvas & Hw & Hh & Hls & Hargs).
    destruct (render_processedData p setCursor h (chartRun_memoCellSound history))
      as (sc' & fresh & Hcomp).
    rewrite Hpd in Hcomp. symmetry in Hcomp.
    apply computeProcessedData_Some in Hcomp
      as (a & parsed & Ha & Hparsed & Hlifespans & _).
    exists d, s, c, a, parsed.
    repeat split; try assumption; try (by apply truthy_nonzero); congruence. }
  split; [exact Hmain |].
  intros Hnone. destruct (drawCalls res.2) as [| args rest] eqn:Hcalls;
    [reflexivity |].
  destruct (Hmain args) as (pd & _ & _ & a & parsed & _ & _ & _ & _ & _ & Ha
                            & Hparsed & _ & Hne & _).
  { apply list_elem_of_here. }
  destruct (Hne (Hnone a parsed Ha Hparsed)).
Qed.

(** C5: with a zero width or a zero height, [+0] or [-0], the component
    returns [null], whatever [apiData] and its hooks hold. *)
Theorem FullPerfChart_null_without_size (p : FullPerfChartProps)
    (setCursor : ObjRef) (h : ChartHooks) :
  (width p = Int 0 ∨ width p = NegZero)
  ∨ (height p = Int 0 ∨ height p = NegZero) →
  output (FullPerfChart_render apiStore p setCursor h) = None.
Proof.
  intros Hzero. unfold FullPerfChart_render.
  destruct (useMemo _ _ _) as [pd ran]. simpl.
  assert (Hfalsy : truthy (width p) = false ∨ truthy (height p) = false).
  { destruct Hzero as [[-> | ->] | [-> | ->]];
      [left | left | right | right]; vm_compute; reflexivity. }
  destruct Hfalsy as [-> | ->]; simpl; [reflexivity |].
  by rewrite orb_true_r.
Qed.

(** C7: on a mounted chart, whatever props it has been given before, the
    [bucketLabels] of the view model are [formatTickBoundary] applied to
    each element of the current response's [boundaries], in order. *)
Theorem bucketLabels_format_boundaries
    (history : list (FullPerfChartProps * ObjRef)) (p : FullPerfChartProps)
    (setCursor : ObjRef) (pd : ProcessedData) :
  processedData
    (FullPerfChart_render apiStore p setCursor (chartRun apiStore history).1)
    = Some pd →
  ∃ a, apiData p = Some a
       ∧ bucketLabels pd = formatTickBoundary <$> boundaries (apiStore a).
Proof.
  intros Hpd.
  destruct (render_processedData p setCursor _ (chartRun_memoCellSound history))
    as (sc' & fresh & Hcomp).
  rewrite Hpd in Hcomp. symmetry in Hcomp.
  apply computeProcessedData_Some in Hcomp as (a & parsed & Ha & _ & _ & Hlabels).
  exists a. split; assumption.
Qed.

(** C3: take two renders in a row, of props [p1] then [p2], from any hook
    state.  The second runs the [useMemo] callback exactly when [apiData],
    [threadName] or [isDarkMode] differs between the two; when none does it
    returns the very object the first returned (same address, same fields)
    and leaves the memo cell alone, whatever the other props and the cursor
    setter have become; when one does it returns the callback's result; and
    that result depends on the props through the three dependencies only. *)
Theorem processedData_memoized (h : ChartHooks) (p1 p2 : FullPerfChartProps)
    (setCursor1 setCursor2 : ObjRef) :
  let r1 := FullPerfChart_render apiStore p1 setCursor1 h in
  let h1 := (FullPerfChart_update apiStore p1 setCursor1 h).1 in
  let r2 := FullPerfChart_render apiStore p2 setCursor2 h1 in
  (recomputed r2 = true ↔
     apiData p1 ≠ apiData p2 ∨ threadName p1 ≠ threadName p2
     ∨ isDarkMode p1 ≠ isDarkMode p2)
  ∧ (recomputed r2 = false →
       processedData r2 = processedData r1
       ∧ memoCell (hooksAfterRender r2) = memoCell h1
       ∧ nextObjectId (hooksAfterRender r2) = nextObjectId h1)
  ∧ (recomputed r2 = true →
       processedData r2 = computeProcessedData apiStore p2 setCursor2 (nextObjectId h1))
  ∧ (∀ q fresh, memoDepsOf q = memoDepsOf p2 →
       computeProcessedData apiStore q setCursor2 fresh
         = computeProcessedData apiStore p2 setCursor2 fresh).
Proof.
  intros r1 h1 r2.
  assert (Hcell : memoCell h1 = Some (memoDepsOf p1, processedData r1)).
  { unfold h1, r1, FullPerfChart_update, FullPerfChart_render.
    destruct (useMemo _ _ _) as [pd ran]. reflexivity. }
  assert (Hr2 : (recomputed r2 = negb (sameMemoDeps (memoDepsOf p1) (memoDepsOf p2)))
                ∧ (sameMemoDeps (memoDepsOf p1) (memoDepsOf p2) = true →
                   processedData r2 = processedData r1
                   ∧ memoCell (hooksAfterRender r2) = memoCell h1
                   ∧ nextObjectId (hooksAfterRender r2) = nextObjectId h1)
                ∧ (sameMemoDeps (memoDepsOf p1) (memoDepsOf p2) = false →
                   processedData r2
                     = computeProcessedData apiStore p2 setCursor2 (nextObjectId h1))).
  { unfold r2, FullPerfChart_render, useMemo. rewrite Hcell.
    destruct (sameMemoDeps (memoDepsOf p1) (memoDepsOf p2)) eqn:Hsame; simpl.
    - apply sameMemoDeps_spec in Hsame. rewrite <- Hsame.
      repeat split; done.
    - repeat split; done. }
  destruct Hr2 as (Hran & Hhit & Hmiss).
  split; [| split; [| split]].
  - rewrite Hran, negb_true_iff, <- not_true_iff_false, sameMemoDeps_spec,
      memoDepsOf_eq.
    split.
    + intros Hne.
      destruct (decide (apiData p1 = apiData p2)); [| by left].
      destruct (decide (threadName p1 = threadName p2)); [| by right; left].
      destruct (decide (isDarkMode p1 = isDarkMode p2)); [| by right; right].
      destruct Hne. done.
    + intros [Hne | [Hne | Hne]] (? & ? & ?); contradiction.
  - intros Hfalse. apply Hhit. rewrite Hran in Hfalse.
    by apply negb_false_iff.
  - intros Htrue. apply Hmiss. rewrite Hran in Htrue.
    by apply negb_true_iff.
  - intros q fresh Hq. by apply computeProcessedData_key.
Qed.

(** *** The view model and the redraws of a mounted chart *)

Lemma computeProcessedData_ready (p : FullPerfChartProps)
    (setCursor fresh a : ObjRef) (parsed : ParsedPerfLog Lifespan ParsedRest) :
  apiData p = Some a → parsedPerfLog apiStore a = Some parsed →
  computeProcessedData apiStore p setCursor fresh =
    Some {| objectId := fresh;
            pd_lifespans := lifespans parsed;
            pd_rest := parsedRest parsed;
            bucketLabels := formatTickBoundary <$> boundaries (apiStore a);
            cursorSetter := {| captured_setCursor := setCursor;
                               captured_threadName := threadName p |} |}.
Proof.
  unfold computeProcessedData, parsedPerfLog. intros -> ->. reflexivity.
Qed.

Lemma computeProcessedData_fresh (p : FullPerfChartProps)
    (setCursor fresh : ObjRef) (pd : ProcessedData) :
  computeProcessedData apiStore p setCursor fresh = Some pd →
  objectId pd = fresh
  ∧ cursorSetter pd = {| captured_setCursor := setCursor;
                         captured_threadName := threadName p |}.
Proof.
  unfold computeProcessedData.
  destruct (apiData p) as [a |]; [| discriminate].
  destruct (processPerfLog _ _) as [parsed |]; [| discriminate].
  intros [= <-]. split; reflexivity.
Qed.

(** A render either finds its key in the memo cell or runs the callback. *)
Lemma render_cases (p : FullPerfChartProps) (setCursor : ObjRef)
    (h : ChartHooks) :
  let r := FullPerfChart_render apiStore p setCursor h in
  (∃ v, memoCell h = Some (memoDepsOf p, v)
        ∧ processedData r = v ∧ recomputed r = false
        ∧ nextObjectId (hooksAfterRender r) = nextObjectId h)
  ∨ ((∀ v, memoCell h ≠ Some (memoDepsOf p, v))
     ∧ processedData r
         = computeProcessedData apiStore p setCursor (nextObjectId h)
     ∧ recomputed r = true
     ∧ nextObjectId h ≤ nextObjectId (hooksAfterRender r)
     ∧ (is_Some (processedData r) →
        nextObjectId h < nextObjectId (hooksAfterRender r))).
Proof.
  unfold FullPerfChart_render, useMemo.
  destruct (memoCell h) as [[deps v] |] eqn:Hcell; simpl.
  - destruct (sameMemoDeps deps (memoDepsOf p)) eqn:Hsame; simpl.
    + apply sameMemoDeps_spec in Hsame as ->. left. exists v.
      repeat split; lia.
    + right. repeat split; try lia.
      * intros v' [= Hdeps _].
        apply sameMemoDeps_spec in Hdeps. congruence.
      * intros [pd ->]. lia.
  - right. repeat split; try lia; [done |]. intros [pd ->]. lia.
Qed.

Lemma update_hooks (p : FullPerfChartProps) (setCursor : ObjRef)
    (h : ChartHooks) :
  let r := FullPerfChart_render apiStore p setCursor h in
  let h' := (FullPerfChart_update apiStore p setCursor h).1 in
  memoCell h' = Some (memoDepsOf p, processedData r)
  ∧ effectDeps h' = Some (objectId <$> processedData r, width p, height p)
  ∧ memoProps h' = Some p
  ∧ nextObjectId h' = nextObjectId (hooksAfterRender r).
Proof.
  unfold FullPerfChart_update, FullPerfChart_render.
  destruct (useMemo _ _ _) as [pd ran]. repeat split.
Qed.

Lemma update_coherent (p : FullPerfChartProps) (setCursor : ObjRef)
    (h : ChartHooks) :
  hooksCoherent h →
  hooksCoherent (FullPerfChart_update apiStore p setCursor h).1.
Proof.
  intros Hcoh.
  destruct (update_hooks p setCursor h) as (Hcell & Heff & Hprops & Hnext).
  unfold hooksCoherent. rewrite Hprops.
  eexists. split; [exact Hcell |]. split; [exact Heff |].
  rewrite Hnext. intros pd Hpd.
  destruct (render_cases p setCursor h)
    as [(v & Hold & Hv & _ & Hsame) | (_ & Hv & _ & _ & Hlt)].
  - rewrite Hsame. unfold hooksCoherent in Hcoh.
    destruct (memoProps h) as [q |].
    + destruct Hcoh as (v' & Hcell' & _ & Hbound).
      apply Hbound. congruence.
    + destruct Hcoh as [Hnone _]. congruence.
  - rewrite Hv in Hpd.
    apply computeProcessedData_fresh in Hpd as Hid. destruct Hid as [-> _].
    apply Hlt. rewrite Hv, Hpd. eauto.
Qed.

Lemma FullPerfChart_coherent (p : FullPerfChartProps) (setCursor : ObjRef)
    (h : ChartHooks) :
  hooksCoherent h → hooksCoherent (FullPerfChart apiStore p setCursor h).1.
Proof.
  intros Hcoh. unfold FullPerfChart.
  destruct (memoProps h) as [q |] eqn:Hq; [| by apply update_coherent].
  destruct (Object_is q p); [exact Hcoh | by apply update_coherent].
Qed.

Lemma FullPerfChart_memoProps (p : FullPerfChartProps) (setCursor : ObjRef)
    (h : ChartHooks) :
  memoProps (FullPerfChart apiStore p setCursor h).1 = Some p.
Proof.
  unfold FullPerfChart.
  destruct (memoProps h) as [q |] eqn:Hq;
    [| apply (update_hooks p setCursor h)].
  unfold Object_is. case_bool_decide as Heq;
    [simpl; congruence | apply (update_hooks p setCursor h)].
Qed.

Lemma initialHooks_coherent : hooksCoherent initialHooks.
Proof. split; reflexivity. Qed.

Lemma initialHooks_sound : memoCellSound apiStore initialHooks.
Proof. intros deps v [=]. Qed.

Lemma chartRun_coherent (history : list (FullPerfChartProps * ObjRef)) :
  hooksCoherent (chartRun apiStore history).1.
Proof.
  unfold chartRun.
  assert (Hinit : hooksCoherent (initialHooks, @nil ChartEvent).1)
    by apply initialHooks_coherent.
  revert Hinit. generalize (initialHooks, @nil ChartEvent).
  induction history as [| x history IH]; intros st Hst; simpl; [exact Hst |].
  apply IH. unfold chartStep.
  pose proof (FullPerfChart_coherent x.1 x.2 st.1 Hst) as Hnext.
  destruct (FullPerfChart apiStore x.1 x.2 st.1). exact Hnext.
Qed.

Lemma props_eq (p q : FullPerfChartProps) :
  memoDepsOf q = memoDepsOf p → width q = width p → height q = height p →
  q = p.
Proof.
  intros (Ha & Ht & Hd)%memoDepsOf_eq Hw Hh.
  destruct p, q. simpl in *. congruence.
Qed.

Lemma drawCalls_memo_part (b : bool) (deps : MemoDeps) (evs : list ChartEvent) :
  drawCalls ((if b then [MemoComputed deps] else []) ++ evs) = drawCalls evs.
Proof. destruct b; reflexivity. Qed.

(** A chart that is ready (a size, a response that parses to lifespans) and
    is handed props other than those of its last render draws exactly once,
    with what those props and the parsed response say. *)
Lemma ready_update_draws (h : ChartHooks) (p : FullPerfChartProps)
    (setCursor a : ObjRef) (parsed : ParsedPerfLog Lifespan ParsedRest) :
  hooksCoherent h → memoCellSound apiStore h →
  memoProps h ≠ Some p →
  truthy (width p) = true → truthy (height p) = true →
  apiData p = Some a → parsedPerfLog apiStore a = Some parsed →
  lifespans parsed ≠ [] →
  ∃ setter,
    drawCalls (FullPerfChart apiStore p setCursor h).2 =
      [ {| arg_svgRef := {| svg_width := width p; svg_height := height p |};
           arg_canvasRef :=
             {| canvas_width := sub (sub (width p) (Int 40)) (Int 50);
                canvas_height := sub (sub (height p) (Int 0)) (Int 30);
                canvas_top := Int 0; canvas_left := Int 40 |};
           arg_size := (width p, height p);
           arg_margins := margins;
           arg_isDarkMode := isDarkMode p;
           arg_lifespans := lifespans parsed;
           arg_rest := parsedRest parsed;
           arg_bucketLabels := formatTickBoundary <$> boundaries (apiStore a);
           arg_cursorSetter := {| captured_setCursor := setter;
                                  captured_threadName := threadName p |} |} ].
Proof.
  intros Hcoh Hsound Hprops Hw Hh Ha Hparsed Hne.
  assert (Hupd : FullPerfChart apiStore p setCursor h
                 = FullPerfChart_update apiStore p setCursor h).
  { unfold FullPerfChart. destruct (memoProps h) as [q |]; [| reflexivity].
    unfold Object_is. case_bool_decide; [congruence | reflexivity]. }
  rewrite Hupd. clear Hupd.
  destruct (render_processedData p setCursor h Hsound)
    as (setter & fresh & Hpd).
  rewrite (computeProcessedData_ready p setter fresh a parsed Ha Hparsed) in Hpd.
  exists setter.
  assert (Hout : output (FullPerfChart_render apiStore p setCursor h)
    = Some ({| svg_width := width p; svg_height := height p |},
            {| canvas_width := sub (sub (width p) (Int 40)) (Int 50);
               canvas_height := sub (sub (height p) (Int 0)) (Int 30);
               canvas_top := Int 0; canvas_left := Int 40 |})).
  { unfold FullPerfChart_render. destruct (useMemo _ _ _) as [pd ran]. simpl.
    rewrite Hw, Hh. reflexivity. }
  assert (Hruns : match effectDeps h with
                  | Some d =>
                      negb (sameEffectDeps d
                              (objectId <$> processedData
                                 (FullPerfChart_render apiStore p setCursor h),
                               width p, height p))
                  | None => true
                  end = true).
  { destruct (effectDeps h) as [d |] eqn:Heff; [| reflexivity].
    apply negb_true_iff, not_true_iff_false. intros Hsame.
    unfold hooksCoherent in Hcoh. destruct (memoProps h) as [q |].
    2:{ destruct Hcoh as [_ Hnone]. congruence. }
    destruct Hcoh as (v & Hcell & Heff' & Hbound).
    rewrite Heff in Heff'. injection Heff' as ->.
    unfold sameEffectDeps, Object_is in Hsame. simpl in Hsame.
    apply andb_prop in Hsame as [Hsame Hheight].
    apply andb_prop in Hsame as [Hid Hwidth].
    apply bool_decide_eq_true in Hid, Hwidth, Hheight.
    destruct (render_cases p setCursor h)
      as [(v' & Hhit & _) | (_ & Hmiss & _)].
    - rewrite Hcell in Hhit.
      assert (Hdeps : memoDepsOf q = memoDepsOf p) by congruence.
      apply Hprops. f_equal. by apply props_eq.
    - rewrite Hpd in Hid, Hmiss. symmetry in Hmiss.
      apply computeProcessedData_fresh in Hmiss as [Hfresh _].
      simpl in Hid, Hfresh. destruct v as [old |]; [| discriminate].
      injection Hid as Hold. specialize (Hbound old eq_refl). lia. }
  unfold FullPerfChart_update. cbn [snd]. rewrite drawCalls_memo_part.
  rewrite Hruns, Hout, Hpd. cbn [fmap option_fmap option_map fst snd].
  unfold drawEffect. rewrite Hw, Hh. cbn [pd_lifespans negb orb].
  destruct (lifespans parsed) as [| l ls] eqn:Hls; [contradiction |].
  reflexivity.
Qed.

(** X7: on a mounted chart, whatever props it has been given before, props
    that differ from the last ones in any field make the chart draw exactly
    once, provided it is ready: width and height truthy and a response that
    parses to at least one lifespan.  The call receives elements of the new
    size (the canvas inset by the margins), the new dark-mode flag, the
    parsed lifespans, the formatted boundaries and a cursor setter bound to
    the new thread name. *)
Theorem redraw_on_change (history : list (FullPerfChartProps * ObjRef))
    (p : FullPerfChartProps) (setCursor a : ObjRef)
    (parsed : ParsedPerfLog Lifespan ParsedRest) :
  memoProps (chartRun apiStore history).1 ≠ Some p →
  truthy (width p) = true → truthy (height p) = true →
  apiData p = Some a → parsedPerfLog apiStore a = Some parsed →
  lifespans parsed ≠ [] →
  ∃ setter,
    drawCalls (FullPerfChart apiStore p setCursor (chartRun apiStore history).1).2 =
      [ {| arg_svgRef := {| svg_width := width p; svg_height := height p |};
           arg_canvasRef :=
             {| canvas_width := sub (sub (width p) (Int 40)) (Int 50);
                canvas_height := sub (sub (height p) (Int 0)) (Int 30);
                canvas_top := Int 0; canvas_left := Int 40 |};
           arg_size := (width p, height p);
           arg_margins := margins;
           arg_isDarkMode := isDarkMode p;
           arg_lifespans := lifespans parsed;
           arg_rest := parsedRest parsed;
           arg_bucketLabels := formatTickBoundary <$> boundaries (apiStore a);
           arg_cursorSetter := {| captured_setCursor := setter;
                                  captured_threadName := threadName p |} |} ].
Proof.
  intros Hprops Hw Hh Ha Hparsed Hne.
  apply ready_update_draws; try assumption.
  - apply chartRun_coherent.
  - apply chartRun_memoCellSound.
Qed.

(** X8: handing the chart the props it was last rendered with does nothing
    at all: [memo] skips the render, so no callback runs, nothing is drawn
    and the hooks stay as they are, even if the cursor hook would now return
    another setter. *)
Theorem same_props_no_work (h : ChartHooks) (p : FullPerfChartProps)
    (setCursor setCursor' : ObjRef) :
  let h1 := (FullPerfChart apiStore p setCursor h).1 in
  FullPerfChart apiStore p setCursor' h1 = (h1, []).
Proof.
  intros h1.
  pose proof (FullPerfChart_memoProps p setCursor h) as Hprops.
  fold h1 in Hprops. unfold FullPerfChart at 1. rewrite Hprops.
  unfold Object_is. by rewrite bool_decide_eq_true_2.
Qed.

(** X9: when a render of a mounted chart runs the [useMemo] callback and the
    callback returns an object, that object is not the one the memo cell held
    before: a change of [apiData], [threadName] or [isDarkMode] always changes
    the identity of a non-null view model. *)
Theorem recomputed_view_model_is_new
    (history : list (FullPerfChartProps * ObjRef)) (p : FullPerfChartProps)
    (setCursor : ObjRef) (pd old : ProcessedData) (deps : MemoDeps) :
  let h := (chartRun apiStore history).1 in
  recomputed (FullPerfChart_render apiStore p setCursor h) = true →
  processedData (FullPerfChart_render apiStore p setCursor h) = Some pd →
  memoCell h = Some (deps, Some old) →
  objectId old ≠ objectId pd.
Proof.
  intros h Hran Hpd Hcell.
  pose proof (chartRun_coherent history) as Hcoh. fold h in Hcoh.
  destruct (render_cases p setCursor h)
    as [(v & _ & _ & Hfalse & _) | (_ & Hmiss & _)]; [congruence |].
  rewrite Hpd in Hmiss. symmetry in Hmiss.
  apply computeProcessedData_fresh in Hmiss as [Hfresh _].
  unfold hooksCoherent in Hcoh. destruct (memoProps h) as [q |].
  - destruct Hcoh as (v & Hcell' & _ & Hbound).
    rewrite Hcell in Hcell'. injection Hcell' as _ <-.
    specialize (Hbound old eq_refl). lia.
  - destruct Hcoh as [Hnone _]. congruence.
Qed.

(** X10: on a mounted chart, whatever props it has been given before, the
    view model's [cursorSetter] forwards [undefined] as it is and tags a
    snapshot with the thread name of the current props, also when the view
    model comes out of the memo cell. *)
Theorem cursorSetter_tags_current_thread
    (history : list (FullPerfChartProps * ObjRef)) (p : FullPerfChartProps)
    (setCursor : ObjRef) (pd : ProcessedData) (snap : PerfSnapType) :
  processedData
    (FullPerfChart_render apiStore p setCursor (chartRun apiStore history).1)
    = Some pd →
  ∃ setter,
    call_cursorSetter (cursorSetter pd) (Some snap)
      = SetCursor setter (Some (threadName p, snap))
    ∧ call_cursorSetter (cursorSetter pd) (@None PerfSnapType)
      = SetCursor setter None.
Proof.
  intros Hpd.
  destruct (render_processedData p setCursor _
              (chartRun_memoCellSound history))
    as (setter & fresh & Hcomp).
  rewrite Hpd in Hcomp. symmetry in Hcomp.
  apply computeProcessedData_fresh in Hcomp as [_ Hsetter].
  exists setter. rewrite Hsetter. split; reflexivity.
Qed.

(** X11: the setter the view model calls is the one the cursor hook returned
    when the callback last ran.  After a render that ran the callback with
    setter [setCursor], any number of renders that leave [apiData],
    [threadName] and [isDarkMode] as they were return that same view model,
    still bound to [setCursor], whatever setters the hook returns in the
    meantime. *)
Theorem cursorSetter_keeps_captured_setter (h : ChartHooks)
    (p q : FullPerfChartProps) (setCursor setCursor' : ObjRef)
    (pd : ProcessedData) (later : list (FullPerfChartProps * ObjRef)) :
  recomputed (FullPerfChart_render apiStore p setCursor h) = true →
  processedData (FullPerfChart_render apiStore p setCursor h) = Some pd →
  Forall (λ x, memoDepsOf x.1 = memoDepsOf p) later →
  memoDepsOf q = memoDepsOf p →
  let h' :=
    foldl (λ h x, (FullPerfChart apiStore x.1 x.2 h).1)
      (FullPerfChart_update apiStore p setCursor h).1 later in
  processedData (FullPerfChart_render apiStore q setCursor' h') = Some pd
  ∧ captured_setCursor (cursorSetter pd) = setCursor.
Proof.
  intros Hran Hpd Hlater Hq h'.
  assert (Hsetter : captured_setCursor (cursorSetter pd) = setCursor).
  { destruct (render_cases p setCursor h)
      as [(v & _ & _ & Hfalse & _) | (_ & Hmiss & _)]; [congruence |].
    rewrite Hpd in Hmiss. symmetry in Hmiss.
    apply computeProcessedData_fresh in Hmiss as [_ ->]. reflexivity. }
  split; [| exact Hsetter].
  assert (Hcell : memoCell h' = Some (memoDepsOf p, Some pd)).
  { unfold h'.
    assert (Hstart : memoCell (FullPerfChart_update apiStore p setCursor h).1
                     = Some (memoDepsOf p, Some pd)).
    { destruct (update_hooks p setCursor h) as (-> & _). by rewrite Hpd. }
    revert Hstart. generalize (FullPerfChart_update apiStore p setCursor h).1.
    induction Hlater as [| x later Hx Hlater IH]; intros h0 Hh0; simpl;
      [exact Hh0 |].
    apply IH. unfold FullPerfChart.
    assert (Hupd : memoCell (FullPerfChart_update apiStore x.1 x.2 h0).1
                   = Some (memoDepsOf p, Some pd)).
    { destruct (update_hooks x.1 x.2 h0) as (-> & _). rewrite Hx. f_equal.
      f_equal.
      destruct (render_cases x.1 x.2 h0)
        as [(v & Hhit & -> & _) | (Hmiss & _)].
      - rewrite Hh0, Hx in Hhit. congruence.
      - destruct (Hmiss (Some pd)). by rewrite Hx. }
    destruct (memoProps h0) as [q0 |]; [| exact Hupd].
    destruct (Object_is q0 x.1); [exact Hh0 | exact Hupd]. }
  destruct (render_cases q setCursor' h')
    as [(v & Hhit & -> & _) | (Hmiss & _)].
  - rewrite Hcell, Hq in Hhit. congruence.
  - destruct (Hmiss (Some pd)). by rewrite Hq.
Qed.

(** Which doubles are falsy. *)
Lemma is_zero_iff (n : number) :
  PrimFloat.is_zero n = true ↔ n = Int 0 ∨ n = NegZero.
Proof.
  split.
  - unfold PrimFloat.is_zero. rewrite FloatAxioms.eqb_spec.
    pose proof (FloatAxioms.SF2Prim_Prim2SF n) as Hn.
    destruct (FloatOps.Prim2SF n) as [sgn | sgn | | sgn m e] eqn:Hsf.
    + intros _. rewrite <- Hn.
      destruct sgn; [right | left]; vm_compute; reflexivity.
    + destruct sgn; vm_compute; discriminate.
    + vm_compute; discriminate.
    + destruct sgn; vm_compute; discriminate.
  - intros [-> | ->]; vm_compute; reflexivity.
Qed.

Lemma SFcompare_refl (x : SpecFloat.spec_float) :
  x ≠ SpecFloat.S754_nan → SpecFloat.SFcompare x x = Some Eq.
Proof.
  destruct x as [sgn | sgn | | sgn m e]; intros Hne; try done.
  - by destruct sgn.
  - simpl. change (Pos.compare_cont Eq m m) with (Pos.compare m m).
    destruct sgn; rewrite Z.compare_refl, Pos.compare_refl; reflexivity.
Qed.

Lemma is_nan_iff (n : number) : PrimFloat.is_nan n = true ↔ n = NaN.
Proof.
  split.
  - unfold PrimFloat.is_nan. rewrite FloatAxioms.eqb_spec.
    unfold SpecFloat.SFeqb.
    pose proof (FloatAxioms.SF2Prim_Prim2SF n) as Hn.
    destruct (FloatOps.Prim2SF n) as [sgn | sgn | | sgn m e] eqn:Hsf;
      try (rewrite SFcompare_refl by discriminate; discriminate).
    intros _. rewrite <- Hn. reflexivity.
  - intros ->. vm_compute. reflexivity.
Qed.

Lemma truthy_false (n : number) :
  truthy n = false ↔ n = Int 0 ∨ n = NegZero ∨ n = NaN.
Proof.
  unfold truthy.
  rewrite negb_false_iff, orb_true_iff, is_zero_iff, is_nan_iff. tauto.
Qed.

(** X12: the component returns [null] exactly when its width or its height
    is [+0], [-0] or [NaN], among all doubles; for every other pair of sizes
    it returns the [svg] at that size and the [canvas] 40 from the left and 0
    from the top, whose width and height are the doubles [width - 40 - 50]
    and [height - 0 - 30], whatever their sign. *)
Theorem FullPerfChart_surface (p : FullPerfChartProps) (setCursor : ObjRef)
    (h : ChartHooks) :
  (output (FullPerfChart_render apiStore p setCursor h) = None
   ↔ (width p = Int 0 ∨ width p = NegZero ∨ width p = NaN)
     ∨ (height p = Int 0 ∨ height p = NegZero ∨ height p = NaN))
  ∧ (output (FullPerfChart_render apiStore p setCursor h) = None
     ∨ output (FullPerfChart_render apiStore p setCursor h) =
         Some ({| svg_width := width p; svg_height := height p |},
               {| canvas_width := sub (sub (width p) (Int 40)) (Int 50);
                  canvas_height := sub (sub (height p) (Int 0)) (Int 30);
                  canvas_top := Int 0; canvas_left := Int 40 |})).
Proof.
  unfold FullPerfChart_render. destruct (useMemo _ _ _) as [pd ran]. simpl.
  rewrite <- !truthy_false.
  destruct (truthy (width p)), (truthy (height p)); simpl; split;
    try (by left); try (by right); split; try tauto; try discriminate;
    intros [|]; discriminate.
Qed.

(** Doubles at work in the canvas size: a container narrower than the two
    horizontal margins gets a canvas of negative width, and beyond 2^53 the
    subtraction rounds. *)
Example canvas_width_doubles :
  sub (sub (Int 50) (Int 40)) (Int 50) = Int (-40)
  ∧ sub (sub (Int (10 ^ 17)) (Int 40)) (Int 50) = Int 99999999999999920.
Proof. split; vm_compute; reflexivity. Qed.

(** *** The chart inside the card *)

Lemma computeProcessedData_inv (p : FullPerfChartProps)
    (setCursor fresh : ObjRef) (pd : ProcessedData) :
  computeProcessedData apiStore p setCursor fresh = Some pd →
  ∃ a parsed,
    apiData p = Some a ∧ parsedPerfLog apiStore a = Some parsed
    ∧ pd = {| objectId := fresh;
              pd_lifespans := lifespans parsed;
              pd_rest := parsedRest parsed;
              bucketLabels := formatTickBoundary <$> boundaries (apiStore a);
              cursorSetter := {| captured_setCursor := setCursor;
                                 captured_threadName := threadName p |} |}.
Proof.
  intros Hpd. destruct (apiData p) as [a |] eqn:Ha.
  - destruct (parsedPerfLog apiStore a) as [parsed |] eqn:Hparsed.
    + rewrite (computeProcessedData_ready p _ _ a parsed Ha Hparsed) in Hpd.
      injection Hpd as <-. eauto.
    + unfold computeProcessedData, parsedPerfLog in *.
      rewrite Ha in Hpd. simpl in Hpd. by rewrite Hparsed in Hpd.
  - unfold computeProcessedData in Hpd. by rewrite Ha in Hpd.
Qed.

(** What a draw call of a chart with a sound memo cell was given. *)
Lemma draw_args_current (h : ChartHooks) (p : FullPerfChartProps)
    (setCursor : ObjRef) (args : DrawArgs) :
  memoCellSound apiStore h →
  args ∈ drawCalls (FullPerfChart apiStore p setCursor h).2 →
  ∃ a parsed setter,
    apiData p = Some a ∧ parsedPerfLog apiStore a = Some parsed
    ∧ lifespans parsed ≠ []
    ∧ truthy (width p) = true ∧ truthy (height p) = true
    ∧ args =
      {| arg_svgRef := {| svg_width := width p; svg_height := height p |};
         arg_canvasRef :=
           {| canvas_width := sub (sub (width p) (Int 40)) (Int 50);
              canvas_height := sub (sub (height p) (Int 0)) (Int 30);
              canvas_top := Int 0; canvas_left := Int 40 |};
         arg_size := (width p, height p);
         arg_margins := margins;
         arg_isDarkMode := isDarkMode p;
         arg_lifespans := lifespans parsed;
         arg_rest := parsedRest parsed;
         arg_bucketLabels := formatTickBoundary <$> boundaries (apiStore a);
         arg_cursorSetter := {| captured_setCursor := setter;
                                captured_threadName := threadName p |} |}.
Proof.
  intros Hsound Hin.
  pose proof (FullPerfChart_draws _ _ _ _ Hin) as Hupd. rewrite Hupd in Hin.
  apply update_draws, drawEffect_draws in Hin
    as (d & s & c & Hpd & Hsvg & Hcanvas & Hw & Hh & Hls & ->).
  destruct (render_processedData p setCursor h Hsound)
    as (setter & fresh & Hcomp).
  rewrite Hpd in Hcomp. symmetry in Hcomp.
  apply computeProcessedData_inv in Hcomp as (a & parsed & Ha & Hparsed & ->).
  exists a, parsed, setter. simpl in *.
  repeat split; try assumption.
  revert Hsvg Hcanvas. unfold FullPerfChart_update, FullPerfChart_render.
  destruct (useMemo _ _ _) as [pd ran]. simpl. rewrite Hw, Hh. simpl.
  intros [= <-] [= <-]. reflexivity.
Qed.

Lemma no_size_no_draw (h : ChartHooks) (p : FullPerfChartProps)
    (setCursor : ObjRef) :
  truthy (width p) && truthy (height p) = false →
  drawCalls (FullPerfChart apiStore p setCursor h).2 = [].
Proof.
  intros Hsize.
  destruct (drawCalls (FullPerfChart apiStore p setCursor h).2)
    as [| args rest] eqn:Hcalls; [reflexivity |].
  assert (Hin : args ∈ drawCalls (FullPerfChart apiStore p setCursor h).2)
    by (rewrite Hcalls; apply list_elem_of_here).
  pose proof (FullPerfChart_draws _ _ _ _ Hin) as Hupd. rewrite Hupd in Hin.
  apply update_draws, drawEffect_draws in Hin
    as (d & s & c & _ & _ & _ & Hw & Hh & _).
  rewrite Hw, Hh in Hsize. discriminate.
Qed.

Lemma renderContent_coherent (setCursor : ObjRef) (s : CardState)
    (mounted : option ChartHooks) (log : list ChartEvent) :
  (∀ h, mounted = Some h → hooksCoherent h ∧ memoCellSound apiStore h) →
  widgetCoherent apiStore
    {| card := s; chart := (renderContent apiStore setCursor s mounted).1;
       chartLog := log |}.
Proof.
  intros Hmounted. unfold widgetCoherent, renderContent. simpl.
  destruct (contentNode s) as [| props | |] eqn:Hcontent; try reflexivity.
  assert (H0 : hooksCoherent (default initialHooks mounted)
               ∧ memoCellSound apiStore (default initialHooks mounted)).
  { destruct mounted as [h |]; simpl; [by apply Hmounted |].
    split; [apply initialHooks_coherent | apply initialHooks_sound]. }
  destruct H0 as [Hcoh Hsound].
  pose proof (FullPerfChart_memoProps props setCursor
                (default initialHooks mounted)) as Hprops.
  pose proof (FullPerfChart_coherent props setCursor _ Hcoh) as Hcoh'.
  pose proof (FullPerfChart_memoCellSound props setCursor _ Hsound) as Hsound'.
  destruct (FullPerfChart apiStore props setCursor _) as [h' evs]. simpl in *.
  exists h'. repeat split; assumption.
Qed.

Lemma widgetCoherent_chart (w : WidgetState) (h : ChartHooks) :
  widgetCoherent apiStore w → chart w = Some h →
  hooksCoherent h ∧ memoCellSound apiStore h.
Proof.
  unfold widgetCoherent. intros Hw Hchart.
  destruct (contentNode (card w)); try congruence.
  destruct Hw as (h' & Hh' & _ & Hcoh & Hsound).
  rewrite Hchart in Hh'. injection Hh' as <-. split; assumption.
Qed.

Lemma widgetStep_coherent (policy : StalePolicy) (w : WidgetState)
    (x : CardEvent * ObjRef) :
  widgetCoherent apiStore w →
  widgetCoherent apiStore (widgetStep apiStore compare policy w x).
Proof.
  intros Hw. unfold widgetStep.
  pose proof (renderContent_coherent x.2 (cardStep compare policy (card w) x.1)
                (chart w)) as Hnext.
  destruct (renderContent apiStore x.2 _ (chart w)) as [c evs]. simpl in Hnext.
  apply Hnext. intros h. by apply widgetCoherent_chart.
Qed.

Lemma widgetRun_coherent (policy : StalePolicy) (dark : bool)
    (setCursor : ObjRef) (events : list (CardEvent * ObjRef)) :
  widgetCoherent apiStore (widgetRun apiStore compare policy dark setCursor events).
Proof.
  unfold widgetRun.
  assert (Hmount : widgetCoherent apiStore (widgetMount apiStore dark setCursor))
    by reflexivity.
  revert Hmount. generalize (widgetMount apiStore dark setCursor).
  induction events as [| x events IH]; intros w Hw; simpl; [exact Hw |].
  apply IH. by apply widgetStep_coherent.
Qed.

Lemma drawCalls_app (evs1 evs2 : list ChartEvent) :
  drawCalls (evs1 ++ evs2) = drawCalls evs1 ++ drawCalls evs2.
Proof. apply omap_app. Qed.

Lemma renderContent_unsized (setCursor : ObjRef) (s : CardState)
    (mounted : option ChartHooks) :
  truthy (chartSize s).1 && truthy (chartSize s).2 = false →
  drawCalls (renderContent apiStore setCursor s mounted).2 = [].
Proof.
  intros Hsize. unfold renderContent, contentNode.
  destruct (data (swrChartApiResp s)) as [d |].
  - pose proof (no_size_no_draw (default initialHooks mounted)
                  {| threadName := selectedThread s; apiData := Some d;
                     width := (chartSize s).1; height := (chartSize s).2;
                     isDarkMode := darkMode s |} setCursor Hsize) as Hnone.
    destruct (FullPerfChart apiStore _ setCursor _) as [h evs]. exact Hnone.
  - destruct (isLoading _); [reflexivity |]. by destruct (error _).
Qed.

Lemma renderContent_no_data (setCursor : ObjRef) (s : CardState)
    (mounted : option ChartHooks) :
  data (swrChartApiResp s) = None →
  (renderContent apiStore setCursor s mounted).2 = [].
Proof.
  intros Hdata. unfold renderContent, contentNode. rewrite Hdata.
  destruct (isLoading _); [reflexivity |]. by destruct (error _).
Qed.

(** X13: [drawFullPerfChart] is never called on a card whose resize
    container has not yet reported a size with a truthy width and a truthy
    height, nor on a card that no fetch has yet handed a response object,
    whatever else happens to it. *)
Theorem widget_needs_size_and_data (policy : StalePolicy) (dark : bool)
    (setCursor : ObjRef) (events : list (CardEvent * ObjRef)) :
  forallb (λ x, negb (sizedResize x.1)) events = true
  ∨ forallb (λ x, negb (deliversData x.1)) events = true →
  drawCalls (chartLog (widgetRun apiStore compare policy dark setCursor events)) = [].
Proof.
  unfold widgetRun.
  assert (Hmount : drawCalls (chartLog (widgetMount apiStore dark setCursor)) = []
                   ∧ truthy (chartSize (card (widgetMount apiStore dark setCursor))).1
                     && truthy (chartSize (card (widgetMount apiStore dark setCursor))).2
                     = false
                   ∧ data (swrChartApiResp
                             (card (widgetMount apiStore dark setCursor))) = None)
    by (repeat split).
  revert Hmount. generalize (widgetMount apiStore dark setCursor).
  intros w (Hlog & Hsize & Hdata) [Hall | Hall].
  - clear Hdata. revert w Hlog Hsize.
    induction events as [| x events IH]; intros w Hlog Hsize; simpl in *;
      [exact Hlog |].
    apply andb_prop in Hall as [Hx Hall].
    assert (Hsize' : truthy (chartSize (cardStep compare policy (card w) x.1)).1
                     && truthy (chartSize (cardStep compare policy (card w) x.1)).2
                     = false).
    { destruct x as [[i | size | dark' | | id o] sc]; simpl in *;
        try assumption.
      - unfold Object_is. by case_bool_decide.
      - by apply negb_true_iff in Hx.
      - by case_decide. }
    pose proof (renderContent_unsized x.2 _ (chart w) Hsize') as Hnone.
    unfold widgetStep.
    destruct (renderContent apiStore x.2 _ (chart w)) as [c evs].
    apply IH; [assumption | | exact Hsize'].
    simpl in *. by rewrite drawCalls_app, Hlog, Hnone.
  - clear Hsize. revert w Hlog Hdata.
    induction events as [| x events IH]; intros w Hlog Hdata; simpl in *;
      [exact Hlog |].
    apply andb_prop in Hall as [Hx Hall].
    assert (Hdata' : data (swrChartApiResp (cardStep compare policy (card w) x.1))
                     = None).
    { destruct x as [[i | size | dark' | | id o] sc]; simpl in *;
        try assumption.
      - unfold Object_is. by case_bool_decide.
      - case_decide; [| assumption]. simpl.
        destruct (writes policy _ id (fetcher o)); [| assumption].
        destruct o as [[d |] | err]; simpl in *; [discriminate | |];
          assumption. }
    pose proof (renderContent_no_data x.2 _ (chart w) Hdata') as Hnone.
    unfold widgetStep.
    destruct (renderContent apiStore x.2 _ (chart w)) as [c evs].
    apply IH; [assumption | | exact Hdata'].
    simpl in *. rewrite Hnone. by rewrite app_nil_r.
Qed.

(** X14: whatever has happened to the card since its mount, a draw call made
    in the render that follows an event shows the card as it is after that
    event: the response object in the cache entry and its parsed lifespans
    (at least one), the size last reported, the current dark-mode flag, and
    a cursor setter bound to the selected thread. *)
Theorem widget_draws_current_state (policy : StalePolicy) (dark : bool)
    (setCursor0 : ObjRef) (events : list (CardEvent * ObjRef))
    (e : CardEvent) (setCursor : ObjRef) (args : DrawArgs) :
  let w := widgetRun apiStore compare policy dark setCursor0 events in
  let s := cardStep compare policy (card w) e in
  args ∈ drawCalls (renderContent apiStore setCursor s (chart w)).2 →
  ∃ d parsed setter,
    data (swrChartApiResp s) = Some d
    ∧ parsedPerfLog apiStore d = Some parsed
    ∧ lifespans parsed ≠ []
    ∧ args =
      {| arg_svgRef := {| svg_width := (chartSize s).1;
                          svg_height := (chartSize s).2 |};
         arg_canvasRef :=
           {| canvas_width := sub (sub (chartSize s).1 (Int 40)) (Int 50);
              canvas_height := sub (sub (chartSize s).2 (Int 0)) (Int 30);
              canvas_top := Int 0; canvas_left := Int 40 |};
         arg_size := chartSize s;
         arg_margins := margins;
         arg_isDarkMode := darkMode s;
         arg_lifespans := lifespans parsed;
         arg_rest := parsedRest parsed;
         arg_bucketLabels := formatTickBoundary <$> boundaries (apiStore d);
         arg_cursorSetter := {| captured_setCursor := setter;
                                captured_threadName := selectedThread s |} |}.
Proof.
  intros w s Hin.
  pose proof (widgetRun_coherent policy dark setCursor0 events) as Hw.
  fold w in Hw.
  assert (Hsound : memoCellSound apiStore (default initialHooks (chart w))).
  { destruct (chart w) as [h |] eqn:Hchart; simpl;
      [by apply (widgetCoherent_chart w h) | apply initialHooks_sound]. }
  revert Hin. unfold renderContent, contentNode.
  destruct (data (swrChartApiResp s)) as [d |] eqn:Hdata.
  - set (props := {| threadName := selectedThread s; apiData := Some d;
                     width := (chartSize s).1; height := (chartSize s).2;
                     isDarkMode := darkMode s |}).
    pose proof (draw_args_current (default initialHooks (chart w)) props
                  setCursor args Hsound) as Hargs.
    destruct (FullPerfChart apiStore props setCursor _) as [h evs].
    intros Hin.
    destruct (Hargs Hin) as (a & parsed & setter & Ha & Hparsed & Hne & _ & _ & ->).
    injection Ha as <-. exists d, parsed, setter.
    repeat split; try assumption.
    simpl. by destruct (chartSize s).
  - destruct (isLoading _); [intros Hin; by apply elem_of_nil in Hin |].
    destruct (error _); intros Hin; by apply elem_of_nil in Hin.
Qed.

(** X15: whatever has happened to the card since its mount, an event that
    changes the card's content into a chart element, or changes the chart
    element's props, makes the chart draw exactly once in the render that
    follows, provided the size is truthy and the response in the cache entry
    parses to at least one lifespan: a response that the fetch layer's
    [compare] tells from the one in the cache entry, a resize to another
    size, a theme change and a change of selection all redraw. *)
Theorem widget_redraws_on_change (policy : StalePolicy) (dark : bool)
    (setCursor0 : ObjRef) (events : list (CardEvent * ObjRef))
    (e : CardEvent) (setCursor d : ObjRef)
    (parsed : ParsedPerfLog Lifespan ParsedRest) :
  let w := widgetRun apiStore compare policy dark setCursor0 events in
  let s := cardStep compare policy (card w) e in
  contentNode (card w) ≠ contentNode s →
  data (swrChartApiResp s) = Some d →
  parsedPerfLog apiStore d = Some parsed → lifespans parsed ≠ [] →
  truthy (chartSize s).1 = true → truthy (chartSize s).2 = true →
  ∃ setter,
    drawCalls (renderContent apiStore setCursor s (chart w)).2 =
      [ {| arg_svgRef := {| svg_width := (chartSize s).1;
                            svg_height := (chartSize s).2 |};
           arg_canvasRef :=
             {| canvas_width := sub (sub (chartSize s).1 (Int 40)) (Int 50);
                canvas_height := sub (sub (chartSize s).2 (Int 0)) (Int 30);
                canvas_top := Int 0; canvas_left := Int 40 |};
           arg_size := chartSize s;
           arg_margins := margins;
           arg_isDarkMode := darkMode s;
           arg_lifespans := lifespans parsed;
           arg_rest := parsedRest parsed;
           arg_bucketLabels := formatTickBoundary <$> boundaries (apiStore d);
           arg_cursorSetter := {| captured_setCursor := setter;
                                  captured_threadName := selectedThread s |} |} ].
Proof.
  intros w s Hchange Hdata Hparsed Hne Hwidth Hheight.
  pose proof (widgetRun_coherent policy dark setCursor0 events) as Hw.
  fold w in Hw.
  set (props := {| threadName := selectedThread s; apiData := Some d;
                   width := (chartSize s).1; height := (chartSize s).2;
                   isDarkMode := darkMode s |}).
  assert (Hcontent : contentNode s = ChartElement props)
    by (unfold contentNode; by rewrite Hdata).
  assert (Hhooks : hooksCoherent (default initialHooks (chart w))
                   ∧ memoCellSound apiStore (default initialHooks (chart w))
                   ∧ memoProps (default initialHooks (chart w)) ≠ Some props).
  { unfold widgetCoherent in Hw. rewrite Hcontent in Hchange.
    destruct (contentNode (card w)) as [| props0 | |] eqn:Hold;
      try (rewrite Hw; simpl; split; [| split];
           [apply initialHooks_coherent | apply initialHooks_sound | done]).
    destruct Hw as (h & -> & Hprops0 & Hcoh & Hsound). simpl.
    split; [| split]; try assumption. rewrite Hprops0. congruence. }
  destruct Hhooks as (Hcoh & Hsound & Hprops).
  destruct (ready_update_draws (default initialHooks (chart w)) props setCursor
              d parsed Hcoh Hsound Hprops Hwidth Hheight eq_refl Hparsed Hne)
    as (setter & Hdraw).
  exists setter. unfold renderContent. rewrite Hcontent.
  destruct (FullPerfChart apiStore props setCursor _) as [h evs].
  simpl in *. rewrite Hdraw. by destruct (chartSize s).
Qed.

(** X16: whatever has happened to the card since its mount, an event that
    leaves the card's content as it was (the selection of the thread already
    selected, an outcome the fetch layer drops, a revalidation while data is
    shown) costs the chart nothing: no render, no callback, no draw, and the
    mounted chart keeps its hooks. *)
Theorem widget_idle_when_content_unchanged (policy : StalePolicy) (dark : bool)
    (setCursor0 : ObjRef) (events : list (CardEvent * ObjRef))
    (e : CardEvent) (setCursor : ObjRef) :
  let w := widgetRun apiStore compare policy dark setCursor0 events in
  let s := cardStep compare policy (card w) e in
  contentNode (card w) = contentNode s →
  renderContent apiStore setCursor s (chart w) = (chart w, []).
Proof.
  intros w s Hsame.
  pose proof (widgetRun_coherent policy dark setCursor0 events) as Hw.
  fold w in Hw. unfold widgetCoherent in Hw. rewrite Hsame in Hw.
  unfold renderContent.
  destruct (contentNode s) as [| props | |]; try (by rewrite Hw).
  destruct Hw as (h & -> & Hprops & _). simpl.
  unfold FullPerfChart. rewrite Hprops. unfold Object_is.
  by rewrite bool_decide_eq_true_2.
Qed.

(** *** The card's race between two selections *)

Lemma mount_requests (dark : bool) :
  requests (mount dark) = [chartApi "svMain"; chartApi "svMain"].
Proof. reflexivity. Qed.

(** C8: the user selects [svNetwork] on a mounted card whose two [svMain]
    fetches (requests 0 and 1, both with path parameter [thread = svMain])
    may still be pending.  The selection sends request 2, a GET of
    [/perfChartData/:thread/] with [thread = svNetwork], and no other request
    is sent.  Whatever the [svMain] fetches deliver and whenever they do it,
    before the selection, between the selection and the response [d] to
    request 2, or after it, the card shows a chart labelled [svNetwork] whose
    data has the content of [d]: [d] itself, or the object already in the
    cache entry when the fetch layer's [compare], a deep equality, found [d]
    equal to it.  A fetch layer that writes every outcome into the cache
    guarantees this up to the arrival of the next stale response; one that
    drops stale data guarantees it for good. *)
Theorem last_selection_wins (policy : StalePolicy) (dark : bool) (d : ObjRef)
    (before between after : list CardEvent) :
  (∀ a b, compare a b = true → apiStore a = apiStore b) →
  forallb (earlierThan 2) before = true →
  forallb (earlierThan 2) between = true →
  forallb (earlierThan 2) after = true →
  (policy = WriteEvery → after = []) →
  let s :=
    cardRun compare policy (mount dark)
      (before ++ SelectThread Item_svNetwork :: between
              ++ FetchSettled 2 (Resolves (Some d)) :: after) in
  ∃ r0 r1 r2 props shown,
    requests s = [r0; r1; r2]
    ∧ pathParams r0 !! "thread" = Some "svMain"
    ∧ pathParams r1 !! "thread" = Some "svMain"
    ∧ method r2 = "GET"
    ∧ path r2 = "/perfChartData/:thread/"
    ∧ pathParams r2 !! "thread" = Some "svNetwork"
    ∧ contentNode s = ChartElement props
    ∧ threadName props = "svNetwork"
    ∧ apiData props = Some shown
    ∧ apiStore shown = apiStore d.
Proof.
  intros Hcompare Hbefore Hbetween Hafter Hpol. cbv zeta.
  rewrite cardRun_app.
  destruct (earlier_events_preserve compare policy 2 before (mount dark) Hbefore)
    as (Hsel & Hreq & _ & _).
  set (s1 := cardRun compare policy (mount dark) before) in *.
  change (cardRun compare policy s1 (SelectThread Item_svNetwork :: ?evs))
    with (cardRun compare policy
            (cardStep compare policy s1 (SelectThread Item_svNetwork)) evs).
  set (s2 := cardStep compare policy s1 (SelectThread Item_svNetwork)).
  assert (Hs2 : selectedThread s2 = "svNetwork" ∧ latestFetch s2 = Some 2
                ∧ 2 ∈ inFlight s2
                ∧ requests s2 = [chartApi "svMain"; chartApi "svMain";
                                 chartApi "svNetwork"]).
  { unfold s2. simpl. rewrite Hsel. simpl. rewrite Hreq, mount_requests.
    repeat split. set_solver. }
  destruct Hs2 as (Hsel2 & Hlatest2 & Hfl2 & Hreq2).
  rewrite cardRun_app.
  destruct (earlier_events_preserve compare policy 2 between s2 Hbetween)
    as (Hsel3 & Hreq3 & Hlatest3 & Hfl3).
  set (s3 := cardRun compare policy s2 between) in *.
  change (cardRun compare policy s3 (FetchSettled 2 ?o :: ?evs))
    with (cardRun compare policy
            (cardStep compare policy s3 (FetchSettled 2 o)) evs).
  set (s4 := cardStep compare policy s3 (FetchSettled 2 (Resolves (Some d)))).
  assert (Hs4 : selectedThread s4 = "svNetwork" ∧ latestFetch s4 = Some 2
                ∧ requests s4 = requests s2
                ∧ ∃ shown, data (swrChartApiResp s4) = Some shown
                           ∧ apiStore shown = apiStore d).
  { unfold s4. simpl. rewrite decide_True by (apply Hfl3; [lia | assumption]).
    simpl. rewrite Hsel3, Hsel2, Hlatest3, Hlatest2, Hreq3.
    repeat split.
    assert (Hw : writes policy (Some 2) 2 (inl d) = true)
      by (destruct policy; reflexivity).
    rewrite Hw.
    destruct (data (swrChartApiResp s3)) as [cached |]; simpl; [| eauto].
    destruct (compare cached d) eqn:Hsame; [| eauto].
    exists cached. split; [reflexivity | by apply Hcompare]. }
  destruct Hs4 as (Hsel4 & Hlatest4 & Hreq4 & shown & Hdata4 & Hshown).
  destruct (earlier_events_preserve compare policy 2 after s4 Hafter)
    as (Hsel5 & Hreq5 & _ & _).
  assert (Hdata5 : data (swrChartApiResp (cardRun compare policy s4 after))
                   = Some shown).
  { destruct (decide (policy = WriteEvery)) as [Hw | Hw].
    - rewrite (Hpol Hw). exact Hdata4.
    - by apply (stale_outcomes_keep_data compare policy 2). }
  exists (chartApi "svMain"), (chartApi "svMain"), (chartApi "svNetwork").
  eexists. exists shown.
  split; [by rewrite Hreq5, Hreq4, Hreq2 |].
  repeat (split; [reflexivity |]).
  split; [unfold contentNode; rewrite Hdata5; reflexivity |].
  simpl. rewrite Hsel5, Hsel4. repeat split. exact Hshown.
Qed.

Lemma content_unchanged_idle (w : WidgetState) (s : CardState)
    (setCursor : ObjRef) :
  widgetCoherent apiStore w →
  contentNode (card w) = contentNode s →
  renderContent apiStore setCursor s (chart w) = (chart w, []).
Proof.
  intros Hw Hsame. unfold widgetCoherent in Hw. rewrite Hsame in Hw.
  unfold renderContent.
  destruct (contentNode s) as [| props | |]; try (by rewrite Hw).
  destruct Hw as (h & -> & Hprops & _). simpl.
  unfold FullPerfChart. rewrite Hprops. unfold Object_is.
  by rewrite bool_decide_eq_true_2.
Qed.

(** X17: a fetch that comes back with a response of the same content as the
    one on screen changes nothing the chart can see: the fetch layer's
    [compare], a deep equality, keeps the object that was there, the chart
    element gets the props it had, and the chart neither renders nor draws. *)
Theorem equal_content_response_no_redraw (policy : StalePolicy) (dark : bool)
    (setCursor0 : ObjRef) (events : list (CardEvent * ObjRef))
    (id : nat) (cached d setCursor : ObjRef) :
  (∀ a b, apiStore a = apiStore b → compare a b = true) →
  let w := widgetRun apiStore compare policy dark setCursor0 events in
  data (swrChartApiResp (card w)) = Some cached →
  apiStore d = apiStore cached →
  let s := cardStep compare policy (card w) (FetchSettled id (Resolves (Some d))) in
  data (swrChartApiResp s) = Some cached
  ∧ contentNode s = contentNode (card w)
  ∧ renderContent apiStore setCursor s (chart w) = (chart w, []).
Proof.
  intros Hcompare w Hdata Hcontent s.
  assert (Hs : data (swrChartApiResp s) = Some cached
               ∧ selectedThread s = selectedThread (card w)
               ∧ chartSize s = chartSize (card w)
               ∧ darkMode s = darkMode (card w)).
  { unfold s. simpl. case_decide; [| done]. simpl. repeat split.
    destruct (writes policy _ id (inl d)); [| assumption].
    rewrite Hdata. simpl. by rewrite Hcompare. }
  destruct Hs as (Hdata' & Hsel & Hsize & Hdark).
  assert (Hsame : contentNode s = contentNode (card w)).
  { unfold contentNode. by rewrite Hdata', Hdata, Hsel, Hsize, Hdark. }
  repeat split; try assumption.
  apply content_unchanged_idle; [| done].
  apply widgetRun_coherent.
Qed.

End ChartProperties.

(** * The model at work on the sample helpers *)

(** A chart mounted before the container has a size draws nothing; the
    resize that follows draws once, with the labels of the three sample
    boundaries. *)
Example sample_run_draws_once :
  (arg_bucketLabels <$>
     drawCalls (chartRun sampleStore
                  [(sampleProps 0 0, 7); (sampleProps 300 200, 7)]).2)
  = [["0"; "1"; "+Inf"]]
  ∧ drawCalls (chartRun sampleStore [(sampleProps 0 0, 7)]).2 = [].
Proof. split; vm_compute; reflexivity. Qed.

(** [draw_only_when_ready] at the draw of the sample run: the response
    object 0 parses to two lifespans. *)
Lemma draw_only_when_ready_sample :
  ∃ args a parsed,
    drawCalls (FullPerfChart sampleStore (sampleProps 300 200) 7
                 (chartRun sampleStore [(sampleProps 0 0, 7)]).1).2 = [args]
    ∧ apiData (sampleProps 300 200) = Some a
    ∧ parsedPerfLog sampleStore a = Some parsed
    ∧ arg_lifespans args = lifespans parsed
    ∧ lifespans parsed ≠ [].
Proof.
  eexists. 
  assert (Hcalls :
    drawCalls (FullPerfChart sampleStore (sampleProps 300 200) 7
                 (chartRun sampleStore [(sampleProps 0 0, 7)]).1).2 = [ _ ])
    by (vm_compute; reflexivity).
  destruct (proj1 (draw_only_when_ready sampleStore [(sampleProps 0 0, 7)]
                     (sampleProps 300 200) 7) _
              (eq_ind_r (λ l, _ ∈ l) (list_elem_of_here _ _) Hcalls))
    as (pd & svg & canvas & a & parsed & _ & _ & _ & _ & _ & Ha & Hparsed
        & Hpd & Hne & Hargs).
  exists a, parsed. rewrite Hcalls.
  repeat split; try assumption. rewrite <- Hpd.
  apply (f_equal arg_lifespans) in Hargs. exact Hargs.
Defined.

(** [FullPerfChart_null_without_size] on the sample response, 200 pixels
    high and not yet wide. *)
Lemma FullPerfChart_null_without_size_sample :
((width (sampleProps 0 200) = Int 0 ∨ width (sampleProps 0 200) = NegZero)
   ∨ (height (sampleProps 0 200) = Int 0
      ∨ height (sampleProps 0 200) = NegZero))
  ∧ output (FullPerfChart_render sampleStore (sampleProps 0 200) 7 initialHooks)
      = None.
Proof.
  split; [left; left; reflexivity |].
  apply (FullPerfChart_null_without_size sampleStore). left. left. reflexivity.
Defined.

(** [bucketLabels_format_boundaries] on a re-render of the sample chart. *)
Lemma bucketLabels_format_boundaries_sample :
  ∃ pd a,
    processedData
      (FullPerfChart_render sampleStore (sampleProps 300 200) 7
         (chartRun sampleStore [(sampleProps 0 0, 7)]).1) = Some pd
    ∧ apiData (sampleProps 300 200) = Some a
    ∧ bucketLabels pd = sampleFormat <$> boundaries (sampleStore a)
    ∧ bucketLabels pd = ["0"; "1"; "+Inf"].
Proof.
  eexists.
  assert (Hpd :
    processedData
      (FullPerfChart_render sampleStore (sampleProps 300 200) 7
         (chartRun sampleStore [(sampleProps 0 0, 7)]).1) = Some _)
    by (vm_compute; reflexivity).
  destruct (bucketLabels_format_boundaries sampleStore [(sampleProps 0 0, 7)]
              (sampleProps 300 200) 7 _ Hpd) as (a & Ha & Hlabels).
  exists a. repeat split; try assumption. 
Defined.

(** [processedData_memoized] on the sample chart: a resize and a new cursor
    setter leave the view model alone, a new thread name does not. *)
Lemma processedData_memoized_sample :
  let r1 := FullPerfChart_render sampleStore (sampleProps 0 0) 7 initialHooks in
  let h1 := (FullPerfChart_update sampleStore (sampleProps 0 0) 7 initialHooks).1 in
  (recomputed (FullPerfChart_render sampleStore (sampleProps 300 200) 8 h1) = false
   ∧ processedData (FullPerfChart_render sampleStore (sampleProps 300 200) 8 h1)
       = processedData r1)
  ∧ recomputed
      (FullPerfChart_render sampleStore
         {| threadName := "svSync"; apiData := Some 0; width := Int 0;
            height := Int 0; isDarkMode := true |} 7 h1) = true.
Proof.
  intros r1 h1.
  destruct (processedData_memoized sampleStore initialHooks (sampleProps 0 0)
              (sampleProps 300 200) 7 8) as (_ & Hhit & _).
  destruct (processedData_memoized sampleStore initialHooks (sampleProps 0 0)
              {| threadName := "svSync"; apiData := Some 0; width := Int 0;
                 height := Int 0; isDarkMode := true |} 7 7) as (Hiff & _).
  split.
  - split; [reflexivity |]. apply Hhit. reflexivity.
  - apply Hiff. right. left. discriminate.
Defined.

Lemma sampleCompare_sound (a b : ObjRef) :
  sampleCompare a b = true → sampleStore a = sampleStore b.
Proof. destruct a, b; simpl; (reflexivity || discriminate). Qed.

(** [last_selection_wins] with a fetch layer that drops stale data: the
    second [svMain] fetch delivers object 5 before the selection, the
    [svNetwork] fetch then delivers object 7, of the same content, and the
    first [svMain] fetch delivers object 0 after it.  The chart keeps object
    5, whose content is that of object 7. *)
Lemma last_selection_wins_sample :
  let s :=
    cardRun sampleCompare DropStaleData (mount false)
      ([FetchSettled 1 (Resolves (Some 5))]
         ++ SelectThread Item_svNetwork
         :: [] ++ FetchSettled 2 (Resolves (Some 7))
         :: [FetchSettled 0 (Resolves (Some 0))]) in
  ∃ r0 r1 r2 props shown,
    requests s = [r0; r1; r2]
    ∧ pathParams r0 !! "thread" = Some "svMain"
    ∧ pathParams r1 !! "thread" = Some "svMain"
    ∧ method r2 = "GET"
    ∧ path r2 = "/perfChartData/:thread/"
    ∧ pathParams r2 !! "thread" = Some "svNetwork"
    ∧ contentNode s = ChartElement props
    ∧ threadName props = "svNetwork"
    ∧ apiData props = Some shown
    ∧ sampleStore shown = sampleStore 7.
Proof.
  apply (last_selection_wins sampleStore sampleCompare DropStaleData false 7
           [FetchSettled 1 (Resolves (Some 5))] []
           [FetchSettled 0 (Resolves (Some 0))]);
    [exact sampleCompare_sound | reflexivity | reflexivity | reflexivity
    | discriminate].
Defined.

(** With a fetch layer that writes every outcome, the late [svMain] response
    of that run replaces the [svNetwork] data under the [svNetwork] label:
    the case the source's FIXME is about. *)
Example late_response_overwrites :
  contentNode
    (cardRun sampleCompare WriteEvery (mount false)
       [ SelectThread Item_svNetwork; FetchSettled 2 (Resolves (Some 7));
         FetchSettled 1 (Resolves (Some 0)) ])
  = ChartElement {| threadName := "svNetwork"; apiData := Some 0;
                    width := Int 0; height := Int 0; isDarkMode := false |}.
Proof. vm_compute. reflexivity. Qed.

(** * The further properties on sample inputs *)

(** [ChartErrorMessage_fallback] for a message the backend may well send. *)
Lemma ChartErrorMessage_fallback_sample :
  ("Request Timeout" ∉ knownErrorTags)
  ∧ ("Request Timeout" ∉ ObjectPrototype_keys)
  ∧ ChartErrorMessage (BackendApiError "Request Timeout") =
      Element "div"
        "absolute inset-0 flex flex-col items-center justify-center text-2xl text-muted-foreground"
        [ Text "Unknown BackendApiError" ].
Proof.
  assert (Htag : "Request Timeout" ∉ knownErrorTags)
    by (refine (bool_decide_unpack _ _); vm_compute; exact I).
  assert (Hkey : "Request Timeout" ∉ ObjectPrototype_keys)
    by (refine (bool_decide_unpack _ _); vm_compute; exact I).
  split; [exact Htag |]. split; [exact Hkey |].
  exact (ChartErrorMessage_fallback "Request Timeout" Htag Hkey).
Defined.

(** [spinner_until_first_outcome]: two selections, a resize and a
    revalidation on a fresh card. *)
Lemma spinner_until_first_outcome_sample :
  contentNode
    (cardRun sampleCompare DropStaleData (mount false)
       [ SelectThread Item_svSync; DebouncedResize (Int 300, Int 200);
         Revalidate; SelectThread Item_svMain ]) = Spinner.
Proof.
  apply (spinner_until_first_outcome sampleCompare DropStaleData false). reflexivity.
Defined.

(** [selection_keeps_shown_data]: [svMain] data (object 5) on screen,
    [svNetwork] selected. *)
Lemma selection_keeps_shown_data_sample :
  contentNode
    (cardStep sampleCompare DropStaleData
       (cardRun sampleCompare DropStaleData (mount false)
          [FetchSettled 1 (Resolves (Some 5))])
       (SelectThread Item_svNetwork)) =
    ChartElement {| threadName := "svNetwork"; apiData := Some 5;
                    width := Int 0; height := Int 0; isDarkMode := false |}.
Proof.
  apply (selection_keeps_shown_data sampleCompare DropStaleData
           (cardRun sampleCompare DropStaleData (mount false)
              [FetchSettled 1 (Resolves (Some 5))])
           Item_svNetwork 5).
  reflexivity.
Defined.

(** [error_shown_until_next_fetch]: the latest mount-time request comes back
    with [not_enough_data]. *)
Lemma error_shown_until_next_fetch_sample :
  let failed :=
    cardStep sampleCompare WriteEvery (mount false)
      (FetchSettled 1 (Rejects (BackendApiError "not_enough_data"))) in
  contentNode failed = ErrorElement (BackendApiError "not_enough_data")
  ∧ contentNode (cardStep sampleCompare WriteEvery failed Revalidate) = Spinner
  ∧ contentNode (cardStep sampleCompare WriteEvery failed (SelectThread Item_svSync))
      = Spinner.
Proof.
  apply (error_shown_until_next_fetch sampleCompare WriteEvery (mount false) 1
           (Rejects (BackendApiError "not_enough_data"))
           (BackendApiError "not_enough_data") Item_svSync).
  - reflexivity.
  - refine (bool_decide_unpack _ _). vm_compute. exact I.
  - reflexivity.
  - reflexivity.
  - discriminate.
Defined.

(** [redraw_on_change]: the sample chart, mounted without a size, is resized
    to 300 by 200. *)
Lemma redraw_on_change_sample :
  ∃ setter,
    drawCalls (FullPerfChart sampleStore (sampleProps 300 200) 8
                 (chartRun sampleStore [(sampleProps 0 0, 7)]).1).2 =
      [ @Build_DrawArgs sampleUtils
          {| svg_width := Int 300; svg_height := Int 200 |}
          {| canvas_width := Int 210; canvas_height := Int 170;
             canvas_top := Int 0; canvas_left := Int 40 |}
          (Int 300, Int 200) margins true [9; 12]%Z () ["0"; "1"; "+Inf"]
          {| captured_setCursor := setter;
             captured_threadName := "svMain" |} ].
Proof.
  apply (redraw_on_change sampleStore [(sampleProps 0 0, 7)]
           (sampleProps 300 200) 8 0
           {| lifespans := [9; 12]%Z; parsedRest := () |}).
  - discriminate.
  - reflexivity.
  - reflexivity.
  - reflexivity.
  - reflexivity.
  - discriminate.
Defined.

(** [recomputed_view_model_is_new]: the sample chart is handed another
    thread name. *)
Lemma recomputed_view_model_is_new_sample :
  let h := (chartRun sampleStore [(sampleProps 0 0, 7)]).1 in
  let p := {| threadName := "svSync"; apiData := Some 0; width := Int 0;
              height := Int 0; isDarkMode := true |} in
  ∃ old pd,
    memoCell h = Some (memoDepsOf (sampleProps 0 0), Some old)
    ∧ processedData (FullPerfChart_render sampleStore p 7 h) = Some pd
    ∧ objectId old = 0 ∧ objectId pd = 1
    ∧ objectId old ≠ objectId pd.
Proof.
  intros h p. eexists. eexists.
  assert (Hcell : memoCell h = Some (memoDepsOf (sampleProps 0 0), Some _))
    by (vm_compute; reflexivity).
  assert (Hpd : processedData (FullPerfChart_render sampleStore p 7 h) = Some _)
    by (vm_compute; reflexivity).
  split; [exact Hcell |]. split; [exact Hpd |].
  split; [reflexivity |]. split; [reflexivity |].
  exact (recomputed_view_model_is_new sampleStore [(sampleProps 0 0, 7)] p 7
           _ _ _ eq_refl Hpd Hcell).
Defined.

(** [cursorSetter_tags_current_thread]: the view model of the sample chart
    after a resize, called with snapshot 5. *)
Lemma cursorSetter_tags_current_thread_sample :
  ∃ pd setter,
    processedData
      (FullPerfChart_render sampleStore (sampleProps 300 200) 8
         (chartRun sampleStore [(sampleProps 0 0, 7)]).1) = Some pd
    ∧ call_cursorSetter (cursorSetter pd) (Some 5%Z)
        = SetCursor setter (Some ("svMain", 5%Z))
    ∧ call_cursorSetter (cursorSetter pd) (@None Z) = SetCursor setter None.
Proof.
  eexists.
  assert (Hpd :
    processedData
      (FullPerfChart_render sampleStore (sampleProps 300 200) 8
         (chartRun sampleStore [(sampleProps 0 0, 7)]).1) = Some _)
    by (vm_compute; reflexivity).
  destruct (cursorSetter_tags_current_thread sampleStore [(sampleProps 0 0, 7)]
              (sampleProps 300 200) 8 _ 5%Z Hpd) as (setter & Hsnap & Hnone).
  exists setter. split; [exact Hpd |]. split; [exact Hsnap | exact Hnone].
Defined.

(** [cursorSetter_keeps_captured_setter]: mounted with setter 7, resized
    twice while the hook returns setters 8 and 9. *)
Lemma cursorSetter_keeps_captured_setter_sample :
  ∃ pd,
    processedData (FullPerfChart_render sampleStore (sampleProps 0 0) 7 initialHooks)
      = Some pd
    ∧ processedData
        (FullPerfChart_render sampleStore (sampleProps 640 480) 10
           (foldl (λ h x, (FullPerfChart sampleStore x.1 x.2 h).1)
              (FullPerfChart_update sampleStore (sampleProps 0 0) 7 initialHooks).1
              [(sampleProps 300 200, 8); (sampleProps 300 400, 9)]))
      = Some pd
    ∧ captured_setCursor (cursorSetter pd) = 7.
Proof.
  eexists.
  assert (Hpd :
    processedData (FullPerfChart_render sampleStore (sampleProps 0 0) 7 initialHooks)
      = Some _) by (vm_compute; reflexivity).
  split; [exact Hpd |].
  apply (cursorSetter_keeps_captured_setter sampleStore initialHooks
           (sampleProps 0 0) (sampleProps 640 480) 7 10 _
           [(sampleProps 300 200, 8); (sampleProps 300 400, 9)]).
  - reflexivity.
  - exact Hpd.
  - repeat constructor.
  - reflexivity.
Defined.

(** [widget_needs_size_and_data]: data arrives, the thread and the theme
    change, but the only resize reports a zero height. *)
Lemma widget_needs_size_and_data_sample :
  drawCalls
    (chartLog
       (widgetRun sampleStore sampleCompare DropStaleData false 7
          [ (FetchSettled 1 (Resolves (Some 0)), 7);
            (DebouncedResize (Int 300, Int 0), 7);
            (SelectThread Item_svSync, 7);
            (ThemeChanged true, 7) ])) = [].
Proof.
  apply (widget_needs_size_and_data sampleStore sampleCompare DropStaleData false 7).
  left. reflexivity.
Defined.

(** [widget_draws_current_state] and [widget_redraws_on_change]: the sample
    response has arrived and the container reports 300 by 200. *)
Lemma widget_draws_current_state_sample :
  let w := widgetRun sampleStore sampleCompare DropStaleData false 7
             [(FetchSettled 1 (Resolves (Some 0)), 7)] in
  let s := cardStep sampleCompare DropStaleData (card w)
             (DebouncedResize (Int 300, Int 200)) in
  ∃ args d parsed,
    drawCalls (renderContent sampleStore 8 s (chart w)).2 = [args]
    ∧ data (swrChartApiResp s) = Some d
    ∧ parsedPerfLog sampleStore d = Some parsed
    ∧ arg_lifespans args = lifespans parsed
    ∧ arg_size args = chartSize s
    ∧ captured_threadName (arg_cursorSetter args) = selectedThread s.
Proof.
  intros w s. eexists.
  assert (Hcalls : drawCalls (renderContent sampleStore 8 s (chart w)).2 = [ _ ])
    by (vm_compute; reflexivity).
  destruct (widget_draws_current_state sampleStore sampleCompare DropStaleData false 7
              [(FetchSettled 1 (Resolves (Some 0)), 7)]
              (DebouncedResize (Int 300, Int 200)) 8 _
              (eq_ind_r (λ l, _ ∈ l) (list_elem_of_here _ _) Hcalls))
    as (d & parsed & setter & Hdata & Hparsed & _ & Hargs).
  exists d, parsed. split; [exact Hcalls |].
  split; [exact Hdata |]. split; [exact Hparsed |].
  rewrite Hargs. repeat split.
Defined.

Lemma widget_redraws_on_change_sample :
  let w := widgetRun sampleStore sampleCompare DropStaleData false 7
             [(FetchSettled 1 (Resolves (Some 0)), 7)] in
  let s := cardStep sampleCompare DropStaleData (card w)
             (DebouncedResize (Int 300, Int 200)) in
  ∃ setter,
    drawCalls (renderContent sampleStore 8 s (chart w)).2 =
      [ @Build_DrawArgs sampleUtils
          {| svg_width := Int 300; svg_height := Int 200 |}
          {| canvas_width := Int 210; canvas_height := Int 170;
             canvas_top := Int 0; canvas_left := Int 40 |}
          (Int 300, Int 200) margins false [9; 12]%Z () ["0"; "1"; "+Inf"]
          {| captured_setCursor := setter;
             captured_threadName := "svMain" |} ].
Proof.
  intros w s.
  apply (widget_redraws_on_change sampleStore sampleCompare DropStaleData false 7
           [(FetchSettled 1 (Resolves (Some 0)), 7)]
           (DebouncedResize (Int 300, Int 200)) 8 0
           {| lifespans := [9; 12]%Z; parsedRest := () |}).
  - discriminate.
  - reflexivity.
  - reflexivity.
  - discriminate.
  - reflexivity.
  - reflexivity.
Defined.

(** [widget_idle_when_content_unchanged]: the thread on screen is selected
    again. *)
Lemma widget_idle_when_content_unchanged_sample :
  let w := widgetRun sampleStore sampleCompare DropStaleData false 7
             [ (FetchSettled 1 (Resolves (Some 0)), 7);
               (DebouncedResize (Int 300, Int 200), 7) ] in
  renderContent sampleStore 8
    (cardStep sampleCompare DropStaleData (card w) (SelectThread Item_svMain)) (chart w)
  = (chart w, []).
Proof.
  intros w.
  apply (widget_idle_when_content_unchanged sampleStore sampleCompare DropStaleData false 7
           [ (FetchSettled 1 (Resolves (Some 0)), 7);
             (DebouncedResize (Int 300, Int 200), 7) ]
           (SelectThread Item_svMain) 8).
  reflexivity.
Defined.

Lemma sampleCompare_complete (a b : ObjRef) :
  sampleStore a = sampleStore b → sampleCompare a b = true.
Proof.
  destruct a, b; simpl; intros Heq; try reflexivity;
    apply (f_equal threadPerfLog) in Heq; discriminate.
Qed.

(** [equal_content_response_no_redraw]: object 5 is on screen at 300 by 200
    when a revalidation comes back with object 7, of the same content. *)
Lemma equal_content_response_no_redraw_sample :
  let w := widgetRun sampleStore sampleCompare DropStaleData false 7
             [ (FetchSettled 1 (Resolves (Some 5)), 7);
               (DebouncedResize (Int 300, Int 200), 7);
               (Revalidate, 7) ] in
  let s := cardStep sampleCompare DropStaleData (card w)
             (FetchSettled 2 (Resolves (Some 7))) in
  data (swrChartApiResp s) = Some 5
  ∧ contentNode s = contentNode (card w)
  ∧ renderContent sampleStore 8 s (chart w) = (chart w, []).
Proof.
  intros w s.
  apply (equal_content_response_no_redraw sampleStore sampleCompare
           DropStaleData false 7
           [ (FetchSettled 1 (Resolves (Some 5)), 7);
             (DebouncedResize (Int 300, Int 200), 7);
             (Revalidate, 7) ] 2 5 7 8).
  - exact sampleCompare_complete.
  - reflexivity.
  - reflexivity.
Defined.
